(** * uberenv-sw4: the host-config and make.inc generators

    A shallow embedding of [packages/uberenv-sw4/package.py].  The package
    writes two text files from a concretised Spack spec: a CMake
    host-config ([create_host_config]) and a Makefile include
    ([makefile_inc]).  Both read the process environment, probe the
    executable search path and the file system, and write their file one
    [cfg.write] call after the other, so the embedding threads the file
    being written through a small state-and-exception monad. *)

From Stdlib Require Import String Ascii List Bool Lia.
From stdpp Require Import base option strings gmap.
Import ListNotations.

Open Scope string_scope.

(** ** Characters that Python writes with an escape *)

(** Python's newline escape, character 10. *)
Definition nl : string := String "010"%char "".
(** The double-quote character, 34. *)
Definition dq : string := String "034"%char "".

(** ** Module-level helpers (package.py, lines 18-37) *)

(** The [if vtype is None] block of [cmake_cache_entry]: the type token of
    the entry.  [None] is Python's default argument. *)
Definition cache_vtype (value : string) (vtype : option string) : string :=
  match vtype with
  | None => if (value =? "ON") || (value =? "OFF") then "BOOL" else "PATH"
  | Some t => t
  end.

(** The format call of line 28.  Its template is: set(, the name, a
    space, the value between double quotes, the word CACHE between spaces,
    the type token, two double quotes directly after it, a closing
    parenthesis and two newlines. *)
Definition cmake_cache_entry (name value : string) (vtype : option string) : string :=
  let vtype := cache_vtype value vtype in
  "set(" +:+ name +:+ " " +:+ dq +:+ value +:+ dq +:+ " CACHE " +:+ vtype
    +:+ dq +:+ dq +:+ ")" +:+ nl +:+ nl.

(** Line 31: the name, an equals sign between spaces, the value, a space
    and a newline. *)
Definition make_entry (name value : string) : string :=
  name +:+ " = " +:+ value +:+ " " +:+ nl.

(** Line 34: a space, -L, a space, the value, /lib/. *)
Definition make_lib_entry (value : string) : string :=
  " -L " +:+ value +:+ "/lib/".

(** Line 37: a space, -I, the value, /include/. *)
Definition make_inc_entry (value : string) : string :=
  " -I" +:+ value +:+ "/include/".

(** ** What the generators are given *)

(** A node of the spec DAG, as far as the package looks into it:
    [.prefix], the wrappers an MPI provider publishes, [.command.path] and
    [.satisfies(constraint)]. *)
Record Dep := {
  dep_prefix : string;
  mpicc : string;
  mpicxx : string;
  mpifc : string;
  command_path : string;
  satisfies : string -> bool
}.

(** The concretised spec.  [contains s q] is Python's [q in spec] and
    [nodes s !! name] is [spec[name]], which raises [KeyError] when no node
    of that name is in the DAG.  [architecture] and [compiler] are the
    [str] renderings used by the [%s] and [{}] formats. *)
Record Spec := {
  architecture : string;
  compiler : string;
  contains : string -> bool;
  nodes : gmap string Dep
}.

(** The process and machine state the generators read: [os.environ],
    [socket.gethostname()], Spack's [which] (the path of the executable it
    finds, if any), [os.path.isfile], [self.compiler.fc] and
    [os.path.abspath] (which depends on the working directory). *)
Record World := {
  env : gmap string string;
  hostname : string;
  which : string -> option string;
  isfile : string -> bool;
  compiler_fc : option string;
  abspath : string -> string
}.

(** Python truth value of [self.compiler.fc]: [None] and the empty string
    are false. *)
Definition truthy (o : option string) : bool :=
  match o with
  | Some s => negb (s =? "")
  | None => false
  end.

(** [str(x)] for a value that is [None] or an executable: the word None,
    or the path of the executable. *)
Definition py_str (o : option string) : string :=
  match o with
  | Some s => s
  | None => "None"
  end.

(** [os.path.join(a, b)] on POSIX, which is what Spack's [join_path] and
    the attribute access [prefix.bin] call. *)
Definition ends_with_sep (a : string) : bool :=
  match String.length a with
  | O => false
  | S n => match String.get n a with
           | Some c => Ascii.eqb c "/"%char
           | None => false
           end
  end.

Definition join_path (a b : string) : string :=
  if String.prefix "/" b then b
  else if (a =? "") || ends_with_sep a then a +:+ b
  else a +:+ "/" +:+ b.

(** ** The file being written, exceptions, and the monad *)

Inductive exn :=
| RuntimeError (msg : string)
| KeyError (key : string).

(** One [cfg.write] call.  A call whose argument is
    [cmake_cache_entry(name, value)] is recorded with its arguments, so
    that the entries of a file can be listed; [render] gives the string
    that reaches the file. *)
Inductive chunk :=
| Text (s : string)
| CacheEntry (name value : string).

Definition render (c : chunk) : string :=
  match c with
  | Text s => s
  | CacheEntry name value => cmake_cache_entry name value None
  end.

(** [cfg_file]: the file opened for writing by [open], with the writes so
    far in order, or [None] before [open]. [tty]: the lines given to
    [tty.info]. *)
Record Sys := {
  cfg_file : option (string * list chunk);
  tty : list string
}.

Definition init : Sys := {| cfg_file := None; tty := [] |}.

Inductive result (A : Type) :=
| Returned (a : A)
| Raised (e : exn).
Arguments Returned {A} a.
Arguments Raised {A} e.

Definition M (A : Type) : Type := Sys -> Sys * result A.

Definition ret {A} (a : A) : M A := fun s => (s, Returned a).

Definition bind {A B} (m : M A) (k : A -> M B) : M B :=
  fun s => match m s with
           | (s', Returned a) => k a s'
           | (s', Raised e) => (s', Raised e)
           end.

Definition raise {A} (e : exn) : M A := fun s => (s, Raised e).

Declare Scope gen_scope.
Delimit Scope gen_scope with gen.
Notation "x <- m ;; k" := (bind m (fun x => k))
  (at level 100, m at level 99, k at level 200, right associativity) : gen_scope.
Notation "m ;; k" := (bind m (fun _ => k))
  (at level 100, k at level 200, right associativity) : gen_scope.
Open Scope gen_scope.

(** [env[key]] *)
Definition env_get (w : World) (key : string) : M string :=
  match env w !! key with
  | Some v => ret v
  | None => raise (KeyError key)
  end.

(** [spec[name]] *)
Definition spec_get (spec : Spec) (name : string) : M Dep :=
  match nodes spec !! name with
  | Some d => ret d
  | None => raise (KeyError name)
  end.

(** [cfg = open(fname, mode w)]: creates or truncates the file.  The file
    system is taken to work: the name can be created in the working
    directory, so that [open] and the writes do not raise [OSError]. *)
Definition open_w (fname : string) : M unit :=
  fun s => ({| cfg_file := Some (fname, []); tty := tty s |}, Returned tt).

(** [cfg.write(...)] *)
Definition write_chunk (c : chunk) : M unit :=
  fun s => ({| cfg_file := match cfg_file s with
                           | Some (f, cs) => Some (f, (cs ++ [c])%list)
                           | None => None
                           end;
               tty := tty s |}, Returned tt).

Definition write (str : string) : M unit := write_chunk (Text str).

Definition write_entry (name value : string) : M unit :=
  write_chunk (CacheEntry name value).

(** [tty.info(msg)] *)
Definition tty_info (msg : string) : M unit :=
  fun s => ({| cfg_file := cfg_file s; tty := (tty s ++ [msg])%list |}, Returned tt).

(** ** The generators *)

Definition banner : string := "##################################" +:+ nl.

(** Lines 179-182 and 329-332: the platform name is [spec.architecture]
    unless the environment has SYS_TYPE. *)
Definition sys_type_of (w : World) (spec : Spec) : string :=
  match env w !! "SYS_TYPE" with
  | Some v => v
  | None => architecture spec
  end.

(** The lines shared by both methods up to [sys_type] (lines 165-182 and
    315-332): the compilers from the environment, the Fortran probe, and
    the platform name.  Returns [(c_compiler, cpp_compiler, f_compiler,
    sys_type)]. *)
Definition compiler_info (w : World) (spec : Spec)
  : M (string * string * option string * string) :=
  c_compiler <- env_get w "SPACK_CC" ;;
  cpp_compiler <- env_get w "SPACK_CXX" ;;
  f_compiler <- (if truthy (compiler_fc w)
                 then fc <- env_get w "SPACK_FC" ;; ret (which w fc)
                 else ret None) ;;
  let sys_type := sys_type_of w spec in
  ret (c_compiler, cpp_compiler, f_compiler, sys_type).

(** ON or OFF, the values written by the [if q in spec: ... else: ...]
    pairs. *)
Definition on_off (b : bool) : string := if b then "ON" else "OFF".

(** [create_host_config] (the class defines it twice, lines 143-304 and
    425-586, with the same body; the second definition is the one bound).
    [install] passes [self.spec] as [spec]. *)
Definition create_host_config (w : World) (spec : Spec) : M string :=
  info <- compiler_info w spec ;;
  let '(c_compiler, cpp_compiler, f_compiler, sys_type) := info in
  cmake_exe <- (if contains spec "+cmake"
                then c <- spec_get spec "cmake" ;; ret (command_path c)
                else match which w "cmake" with
                     | None => raise (RuntimeError
                         "failed to find CMake (and cmake variant is off)")
                     | Some p => ret p
                     end) ;;
  let host_cfg_fname :=
    hostname w +:+ "-" +:+ sys_type +:+ "-" +:+ compiler spec +:+ "-ascent.cmake" in
  open_w host_cfg_fname ;;
  write banner ;;
  write ("# spack generated host-config" +:+ nl) ;;
  write banner ;;
  write ("# " +:+ sys_type +:+ "-" +:+ compiler spec +:+ nl) ;;
  write (banner +:+ nl) ;;
  write ("# cmake from spack " +:+ nl) ;;
  write ("# cmake executable path: " +:+ cmake_exe +:+ nl +:+ nl) ;;
  write ("#######" +:+ nl) ;;
  write ("# using " +:+ compiler spec +:+ " compiler spec" +:+ nl) ;;
  write ("#######" +:+ nl +:+ nl) ;;
  write ("# c compiler used by spack" +:+ nl) ;;
  write_entry "CMAKE_C_COMPILER" c_compiler ;;
  write ("# cpp compiler used by spack" +:+ nl) ;;
  write_entry "CMAKE_CXX_COMPILER" cpp_compiler ;;
  (if contains spec "+shared"
   then write_entry "BUILD_SHARED_LIBS" "ON"
   else write_entry "BUILD_SHARED_LIBS" "OFF") ;;
  (if contains spec "+test"
   then write_entry "ENABLE_TESTS" "ON"
   else write_entry "ENABLE_TESTS" "OFF") ;;
  write ("# conduit from spack " +:+ nl) ;;
  lapack <- spec_get spec "netlib-lapack" ;;
  write_entry "LAPACK_DIR" (dep_prefix lapack) ;;
  blas <- spec_get spec "blas" ;;
  write_entry "BLAS_DIR" (dep_prefix blas) ;;
  umpire <- spec_get spec "umpire" ;;
  write_entry "UMPIRE_DIR" (dep_prefix umpire) ;;
  umpire <- spec_get spec "umpire" ;;
  write_entry "UMPIRE_DIR" (dep_prefix umpire) ;;
  write ("# MPI Support" +:+ nl) ;;
  (if contains spec "+mpi"
   then
     write_entry "ENABLE_MPI" "ON" ;;
     mpi <- spec_get spec "mpi" ;;
     write_entry "MPI_C_COMPILER" (mpicc mpi) ;;
     mpi <- spec_get spec "mpi" ;;
     write_entry "MPI_CXX_COMPILER" (mpicxx mpi) ;;
     mpi <- spec_get spec "mpi" ;;
     write_entry "MPI_Fortran_COMPILER" (mpifc mpi) ;;
     mpi <- spec_get spec "mpi" ;;
     let mpiexe_bin := join_path (join_path (dep_prefix mpi) "bin") "mpiexec" in
     if isfile w mpiexe_bin
     then
       cmake <- spec_get spec "cmake" ;;
       if satisfies cmake "@3.10:"
       then write_entry "MPIEXEC_EXECUTABLE" mpiexe_bin
       else write_entry "MPIEXEC" mpiexe_bin
     else ret tt
   else write_entry "ENABLE_MPI" "OFF") ;;
  write ("# CUDA Support" +:+ nl) ;;
  (if contains spec "+cuda"
   then write_entry "ENABLE_CUDA" "ON"
   else write_entry "ENABLE_CUDA" "OFF") ;;
  (if contains spec "+openmp"
   then write_entry "ENABLE_OPENMP" "ON"
   else write_entry "ENABLE_OPENMP" "OFF") ;;
  write banner ;;
  write ("# end spack generated host-config" +:+ nl) ;;
  write banner ;;
  let host_cfg_fname := abspath w host_cfg_fname in
  tty_info ("spack generated conduit host-config file: " +:+ host_cfg_fname) ;;
  ret host_cfg_fname.

(** [makefile_inc] (lines 306-423). *)
Definition makefile_inc (w : World) (spec : Spec) : M string :=
  info <- compiler_info w spec ;;
  let '(c_compiler, cpp_compiler, f_compiler, sys_type) := info in
  let host_cfg_fname :=
    "make-" +:+ hostname w +:+ "-" +:+ sys_type +:+ "-" +:+ compiler spec
      +:+ "-ascent.inc" in
  open_w host_cfg_fname ;;
  write banner ;;
  write ("# spack generated make.inc" +:+ nl) ;;
  write banner ;;
  write ("# " +:+ sys_type +:+ "-" +:+ compiler spec +:+ nl) ;;
  write (banner +:+ nl) ;;
  write ("#######" +:+ nl) ;;
  write ("# using " +:+ compiler spec +:+ " compiler spec" +:+ nl) ;;
  write ("#######" +:+ nl +:+ nl) ;;
  write ("# c compiler used by spack" +:+ nl) ;;
  write (make_entry "CC" c_compiler) ;;
  write ("# cpp compiler used by spack" +:+ nl) ;;
  mpi <- spec_get spec "mpi" ;;
  write (make_entry "CXX" (mpicxx mpi)) ;;
  write ("# fortran compiler used by spack" +:+ nl) ;;
  write (make_entry "FC" (py_str f_compiler)) ;;
  mpi <- spec_get spec "mpi" ;;
  write (make_entry "CC" (mpicxx mpi)) ;;
  write (make_entry "LINKER" "nvcc") ;;
  write "EXTRA_CXX_FLAGS = " ;;
  lapack <- spec_get spec "netlib-lapack" ;;
  write (make_inc_entry (dep_prefix lapack)) ;;
  blas <- spec_get spec "blas" ;;
  write (make_inc_entry (dep_prefix blas)) ;;
  umpire <- spec_get spec "umpire" ;;
  write (make_inc_entry (dep_prefix umpire)) ;;
  raja <- spec_get spec "raja" ;;
  write (make_inc_entry (dep_prefix raja)) ;;
  proj <- spec_get spec "proj" ;;
  write (make_inc_entry (dep_prefix proj)) ;;
  write " -DSW4_USE_UMPIRE=1 -DSW4_RAJA_VERSION=7" ;;
  write " -std=c++11" ;;
  mpi <- spec_get spec "mpi" ;;
  write (" -ccbin " +:+ mpicxx mpi) ;;
  mpi <- spec_get spec "mpi" ;;
  write (" -Xcompiler " +:+ dq +:+ "-fopenmp" +:+ dq) ;;
  write nl ;;
  write "EXTRA_LINK_FLAGS = " ;;
  lapack <- spec_get spec "netlib-lapack" ;;
  write (make_lib_entry (dep_prefix lapack)) ;;
  blas <- spec_get spec "blas" ;;
  write (make_lib_entry (dep_prefix blas)) ;;
  umpire <- spec_get spec "umpire" ;;
  write (make_lib_entry (dep_prefix umpire)) ;;
  raja <- spec_get spec "raja" ;;
  write (make_lib_entry (dep_prefix raja)) ;;
  proj <- spec_get spec "proj" ;;
  write (make_lib_entry (dep_prefix proj)) ;;
  write nl ;;
  write banner ;;
  write ("# end spack generated make.inc" +:+ nl) ;;
  write banner ;;
  let host_cfg_fname := abspath w host_cfg_fname in
  tty_info ("spack generated conduit make.inc file: " +:+ host_cfg_fname) ;;
  ret host_cfg_fname.

(** ** Reading a run *)

(** The writes of the file a run left behind and its name. *)
Definition chunks_of (s : Sys) : list chunk :=
  match cfg_file s with
  | Some (_, cs) => cs
  | None => []
  end.

Definition file_name (s : Sys) : option string :=
  match cfg_file s with
  | Some (f, _) => Some f
  | None => None
  end.

(** The bytes of the file: the rendered writes, one after the other. *)
Fixpoint bytes (cs : list chunk) : string :=
  match cs with
  | [] => ""
  | c :: cs' => render c +:+ bytes cs'
  end.

Definition content (s : Sys) : string := bytes (chunks_of s).

(** The lines logged through [tty.info]. *)
Definition log_lines (s : Sys) : list string := tty s.

(** The cache entries among the writes, as (name, value) pairs in the
    order written. *)
Fixpoint entries (cs : list chunk) : list (string * string) :=
  match cs with
  | [] => []
  | Text _ :: cs' => entries cs'
  | CacheEntry n v :: cs' => (n, v) :: entries cs'
  end.

Definition entry_names (cs : list chunk) : list string := map fst (entries cs).

(** Entry names that concern MPI: ENABLE_MPI and every name that starts
    with MPI (the three wrapper entries and the two launcher keys). *)
Definition mpi_related (name : string) : bool :=
  (name =? "ENABLE_MPI") || String.prefix "MPI" name.

Definition mpi_entries (cs : list chunk) : list (string * string) :=
  List.filter (fun e => mpi_related (fst e)) (entries cs).

(** The two keys under which the launcher may be written. *)
Definition mpiexec_key (name : string) : bool :=
  (name =? "MPIEXEC") || (name =? "MPIEXEC_EXECUTABLE").

Definition mpiexec_entries (cs : list chunk) : list (string * string) :=
  List.filter (fun e => mpiexec_key (fst e)) (entries cs).

(** The fragments written after the chunk [start] up to the next chunk
    that is a lone newline: the value of a flag-accumulation variable. *)
Definition is_text (str : string) (c : chunk) : bool :=
  match c with
  | Text t => t =? str
  | CacheEntry _ _ => false
  end.

Fixpoint until_newline (cs : list chunk) : list chunk :=
  match cs with
  | [] => []
  | c :: cs' => if is_text nl c then [] else c :: until_newline cs'
  end.

Fixpoint flags_after (start : string) (cs : list chunk) : list chunk :=
  match cs with
  | [] => []
  | c :: cs' => if is_text start c then until_newline cs' else flags_after start cs'
  end.

Definition extra_cxx_flags (s : Sys) : list chunk :=
  flags_after "EXTRA_CXX_FLAGS = " (chunks_of s).

(** The comment line that records where cmake was found (line 210). *)
Definition cmake_exe_line (cmake_exe : string) : chunk :=
  Text ("# cmake executable path: " +:+ cmake_exe +:+ nl +:+ nl).

(** ** When the generators run to the end

    On a file system that works, the exceptions of the two methods come
    from lookups that find nothing.  The predicates below say, in the
    order of the code, that the lookups a run performs succeed. *)

Definition has_key {V} (m : gmap string V) (k : string) : bool :=
  match m !! k with
  | Some _ => true
  | None => false
  end.

(** Lines 165-171: SPACK_CC and SPACK_CXX are read always, SPACK_FC only
    when the compiler has a Fortran component. *)
Definition compiler_ok (w : World) : bool :=
  has_key (env w) "SPACK_CC" && has_key (env w) "SPACK_CXX"
  && (negb (truthy (compiler_fc w)) || has_key (env w) "SPACK_FC").

(** Lines 188-195 without the exception: the path written to the comment
    line. *)
Definition resolved_cmake (w : World) (spec : Spec) : option string :=
  if contains spec "+cmake"
  then match nodes spec !! "cmake" with
       | Some c => Some (command_path c)
       | None => None
       end
  else which w "cmake".

Definition cmake_found (w : World) (spec : Spec) : bool :=
  match resolved_cmake w spec with
  | Some _ => true
  | None => false
  end.

(** Line 268: the launcher path probed by [os.path.isfile]. *)
Definition mpiexe_bin_of (mpi : Dep) : string :=
  join_path (join_path (dep_prefix mpi) "bin") "mpiexec".

(** Lines 261-279: with +mpi the MPI node is needed, and the cmake node
    too once the launcher file exists. *)
Definition mpi_block_ok (w : World) (spec : Spec) : bool :=
  negb (contains spec "+mpi")
  || match nodes spec !! "mpi" with
     | Some mpi => negb (isfile w (mpiexe_bin_of mpi)) || has_key (nodes spec) "cmake"
     | None => false
     end.

Definition host_config_ok (w : World) (spec : Spec) : bool :=
  compiler_ok w && cmake_found w spec
  && has_key (nodes spec) "netlib-lapack" && has_key (nodes spec) "blas"
  && has_key (nodes spec) "umpire" && mpi_block_ok w spec.

Definition makefile_ok (w : World) (spec : Spec) : bool :=
  compiler_ok w && has_key (nodes spec) "mpi"
  && has_key (nodes spec) "netlib-lapack" && has_key (nodes spec) "blas"
  && has_key (nodes spec) "umpire" && has_key (nodes spec) "raja"
  && has_key (nodes spec) "proj".

(** The name given to [open] by each method. *)
Definition host_cfg_fname (w : World) (spec : Spec) : string :=
  hostname w +:+ "-" +:+ sys_type_of w spec +:+ "-" +:+ compiler spec
    +:+ "-ascent.cmake".

Definition make_inc_fname (w : World) (spec : Spec) : string :=
  "make-" +:+ hostname w +:+ "-" +:+ sys_type_of w spec +:+ "-"
    +:+ compiler spec +:+ "-ascent.inc".

(** The exception of lines 193-194. *)
Definition cmake_not_found : exn :=
  RuntimeError "failed to find CMake (and cmake variant is off)".

(** ** Two runs on the same input

    What the text of the two files is made from: the environment, the host
    name, the Fortran probe, the file system, the working directory, and
    the spec with its variants and nodes.  Where cmake is found (on the
    search path, or the command of the cmake node) is left free; of the
    cmake node only the version constraints it satisfies are fixed. *)
Record same_inputs (w1 w2 : World) (s1 s2 : Spec) : Prop := {
  same_env : env w1 = env w2;
  same_hostname : hostname w1 = hostname w2;
  same_compiler_fc : compiler_fc w1 = compiler_fc w2;
  same_fortran_probe :
    forall fc, env w1 !! "SPACK_FC" = Some fc -> which w1 fc = which w2 fc;
  same_isfile : isfile w1 = isfile w2;
  same_cwd : abspath w1 = abspath w2;
  same_architecture : architecture s1 = architecture s2;
  same_compiler : compiler s1 = compiler s2;
  same_variants : contains s1 = contains s2;
  same_nodes : delete "cmake" (nodes s1) = delete "cmake" (nodes s2);
  same_cmake_version :
    satisfies <$> (nodes s1 !! "cmake") = satisfies <$> (nodes s2 !! "cmake")
}.

(** ** The documented forms, for comparison with the code *)

Module Documented.

(** A cache-entry line as the interface description gives it: the type
    token, a space, then the empty docstring, and a blank line after. *)
Definition cache_entry_line (name value vtype : string) : string :=
  "set(" +:+ name +:+ " " +:+ dq +:+ value +:+ dq +:+ " CACHE " +:+ vtype
    +:+ " " +:+ dq +:+ dq +:+ ")" +:+ nl +:+ nl.

(** The documented file names. *)
Definition cmake_file_name (host platformId compilerId : string) : string :=
  host +:+ "-" +:+ platformId +:+ "-" +:+ compilerId +:+ "-host-config.cmake".

Definition make_file_name (host platformId compilerId : string) : string :=
  "make-" +:+ host +:+ "-" +:+ platformId +:+ "-" +:+ compilerId
    +:+ "-include.inc".

(** The documented EXTRA_CXX_FLAGS fragments: the compiler-binding
    fragment only when the mpi flag is on. *)
Definition cxx_flags (mpi_enabled : bool)
    (lapack blas memoryPool portabilityLayer projection mpicxx : string)
  : list chunk :=
  [Text (make_inc_entry lapack); Text (make_inc_entry blas);
   Text (make_inc_entry memoryPool); Text (make_inc_entry portabilityLayer);
   Text (make_inc_entry projection);
   Text " -DSW4_USE_UMPIRE=1 -DSW4_RAJA_VERSION=7";
   Text " -std=c++11"]
  ++ (if mpi_enabled then [Text (" -ccbin " +:+ mpicxx)] else [])
  ++ [Text (" -Xcompiler " +:+ dq +:+ "-fopenmp" +:+ dq)].

End Documented.

(** ** Two machines and two specs to run the generators on *)

Module Sample.

Definition lib (p : string) : Dep :=
  {| dep_prefix := p; mpicc := ""; mpicxx := ""; mpifc := "";
     command_path := ""; satisfies := fun _ => false |}.

Definition mvapich : Dep :=
  {| dep_prefix := "/opt/mpi"; mpicc := "/opt/mpi/bin/mpicc";
     mpicxx := "/opt/mpi/bin/mpicxx"; mpifc := "/opt/mpi/bin/mpif90";
     command_path := ""; satisfies := fun _ => false |}.

(** cmake 3.12: satisfies the constraint of line 272. *)
Definition cmake_3_12 : Dep :=
  {| dep_prefix := "/opt/cmake"; mpicc := ""; mpicxx := ""; mpifc := "";
     command_path := "/opt/cmake/bin/cmake";
     satisfies := fun q => q =? "@3.10:" |}.

Definition dag : gmap string Dep :=
  {[ "netlib-lapack" := lib "/opt/lapack"; "blas" := lib "/opt/blas";
     "umpire" := lib "/opt/umpire"; "raja" := lib "/opt/raja";
     "proj" := lib "/opt/proj"; "mpi" := mvapich; "cmake" := cmake_3_12 ]}.

(** +shared +mpi +cuda, the defaults of the package. *)
Definition spec_mpi : Spec :=
  {| architecture := "linux-rhel7-x86_64"; compiler := "gcc@7.3.0";
     contains := fun q => (q =? "+shared") || (q =? "+mpi") || (q =? "+cuda");
     nodes := dag |}.

(** The same DAG with the mpi variant off. *)
Definition spec_serial : Spec :=
  {| architecture := "linux-rhel7-x86_64"; compiler := "gcc@7.3.0";
     contains := fun q => (q =? "+shared") || (q =? "+cuda");
     nodes := dag |}.

(** No Fortran compiler; cmake on the search path; the launcher exists. *)
Definition quartz : World :=
  {| env := {[ "SPACK_CC" := "/usr/bin/gcc"; "SPACK_CXX" := "/usr/bin/g++" ]};
     hostname := "quartz";
     which := fun n => if n =? "cmake" then Some "/usr/bin/cmake" else None;
     isfile := fun p => p =? "/opt/mpi/bin/mpiexec";
     compiler_fc := None;
     abspath := fun p => "/tmp/spack-build/" +:+ p |}.

(** The same machine with cmake found elsewhere. *)
Definition quartz_local_cmake : World :=
  {| env := env quartz;
     hostname := hostname quartz;
     which := fun n => if n =? "cmake" then Some "/usr/local/bin/cmake" else None;
     isfile := isfile quartz;
     compiler_fc := compiler_fc quartz;
     abspath := abspath quartz |}.

(** The same machine with no cmake on the search path. *)
Definition quartz_no_cmake : World :=
  {| env := env quartz;
     hostname := hostname quartz;
     which := fun _ => None;
     isfile := isfile quartz;
     compiler_fc := compiler_fc quartz;
     abspath := abspath quartz |}.

(** The same machine without the launcher file. *)
Definition quartz_no_launcher : World :=
  {| env := env quartz;
     hostname := hostname quartz;
     which := which quartz;
     isfile := fun _ => false;
     compiler_fc := compiler_fc quartz;
     abspath := abspath quartz |}.

(** cmake 3.8: does not satisfy the constraint of line 272. *)
Definition cmake_3_8 : Dep :=
  {| dep_prefix := "/opt/cmake"; mpicc := ""; mpicxx := ""; mpifc := "";
     command_path := "/opt/cmake/bin/cmake";
     satisfies := fun _ => false |}.

Definition spec_old_cmake : Spec :=
  {| architecture := architecture spec_mpi; compiler := compiler spec_mpi;
     contains := contains spec_mpi;
     nodes := <["cmake" := cmake_3_8]> dag |}.

(** +mpi with no cmake node in the DAG. *)
Definition spec_no_cmake_node : Spec :=
  {| architecture := architecture spec_mpi; compiler := compiler spec_mpi;
     contains := contains spec_mpi;
     nodes := delete "cmake" dag |}.

(** The mpi variant off and no MPI node in the DAG. *)
Definition spec_no_mpi_node : Spec :=
  {| architecture := architecture spec_mpi; compiler := compiler spec_mpi;
     contains := contains spec_serial;
     nodes := delete "mpi" dag |}.

End Sample.

(** ** Further readings of a run *)

(** The value of EXTRA_LINK_FLAGS (lines 391-402). *)
Definition extra_link_flags (s : Sys) : list chunk :=
  flags_after "EXTRA_LINK_FLAGS = " (chunks_of s).

(** The writes that assign the Makefile variable [name]: the lines that
    begin with the name, a space, an equals sign and a space, as
    [make_entry] writes them. *)
Fixpoint starts_with (p str : string) : bool :=
  match p with
  | "" => true
  | String a p' =>
      match str with
      | "" => false
      | String b str' => Ascii.eqb a b && starts_with p' str'
      end
  end.

Definition assigns (name : string) (c : chunk) : bool :=
  match c with
  | Text t => starts_with (name +:+ " = ") t
  | CacheEntry _ _ => false
  end.

Definition assignments_of (name : string) (cs : list chunk) : list chunk :=
  List.filter (assigns name) cs.

(** The cache entries written under [name]. *)
Definition entries_named (name : string) (cs : list chunk) : list (string * string) :=
  List.filter (fun e => fst e =? name) (entries cs).

(** The characters of a string do not include [c]. *)
Definition lacks (c : ascii) (str : string) : Prop :=
  ~ In c (list_ascii_of_string str).

(** ** More sample inputs *)

(** The sample machine with a gfortran that the search path has. *)
Definition quartz_fortran : World :=
  {| env := <["SPACK_FC" := "gfortran"]> (env Sample.quartz);
     hostname := hostname Sample.quartz;
     which := fun n => if n =? "gfortran" then Some "/usr/bin/gfortran"
                       else which Sample.quartz n;
     isfile := isfile Sample.quartz;
     compiler_fc := Some "/usr/bin/gfortran";
     abspath := abspath Sample.quartz |}.

(** ** The install method (lines 89-101)

    [install] runs the two generators inside the directory [spack-build]
    and copies their files.  What it does to the file system is recorded
    as a list of actions; [disk] holds the files the generators wrote in
    that directory, by name, with what they hold once closed. *)

Inductive action :=
| WorkingDir (dir : string)
| Mkdirp (dir : string)
| Install (src dest : string).

Record Build := {
  disk : gmap string (list chunk);
  actions : list action;
  build_log : list string
}.

(** The file a generator had open, put on disk: opening with mode w
    replaces a file of the same name. *)
Definition close_file (st : Sys) (d : gmap string (list chunk))
  : gmap string (list chunk) :=
  match cfg_file st with
  | Some (f, cs) => <[f := cs]> d
  | None => d
  end.

(** [install(self, spec, prefix)].  [abspath w] resolves names against the
    directory the block runs in.  [env] is read at line 100 and again at
    line 101. *)
Definition install (w : World) (spec : Spec) (prefix : string)
  : Build * result unit :=
  let entered := [WorkingDir "spack-build"] in
  let (st1, r1) := create_host_config w spec init in
  let disk1 := close_file st1 ∅ in
  match r1 with
  | Raised e =>
      ({| disk := disk1; actions := entered; build_log := tty st1 |}, Raised e)
  | Returned host_cfg_fname =>
      let (st2, r2) := makefile_inc w spec {| cfg_file := None; tty := tty st1 |} in
      let disk2 := close_file st2 disk1 in
      match r2 with
      | Raised e =>
          ({| disk := disk2; actions := entered; build_log := tty st2 |}, Raised e)
      | Returned make_cfg_fname =>
          let copied :=
            (entered ++ [Mkdirp prefix; Install make_cfg_fname prefix;
                         Install host_cfg_fname prefix])%list in
          match env w !! "SPACK_DEBUG_LOG_DIR" with
          | None =>
              ({| disk := disk2; actions := copied; build_log := tty st2 |},
               Raised (KeyError "SPACK_DEBUG_LOG_DIR"))
          | Some log_dir =>
              let copied := (copied ++ [Install host_cfg_fname log_dir])%list in
              match env w !! "SPACK_DEBUG_LOG_DIR" with
              | None =>
                  ({| disk := disk2; actions := copied; build_log := tty st2 |},
                   Raised (KeyError "SPACK_DEBUG_LOG_DIR"))
              | Some log_dir =>
                  ({| disk := disk2;
                      actions := (copied ++ [Install make_cfg_fname log_dir])%list;
                      build_log := tty st2 |}, Returned tt)
              end
          end
      end
  end.

(** The sample machine with a debug log directory in the environment. *)
Definition quartz_logging : World :=
  {| env := <["SPACK_DEBUG_LOG_DIR" := "/tmp/spack-stage/logs"]> (env Sample.quartz);
     hostname := hostname Sample.quartz;
     which := which Sample.quartz;
     isfile := isfile Sample.quartz;
     compiler_fc := compiler_fc Sample.quartz;
     abspath := abspath Sample.quartz |}.

(** ** The post-install check (lines 103-141)

    [check_install] prints, enters two scratch directories, runs cmake,
    make and the example program, and copies the example files.  What it
    does is recorded as a list of events, one for each step it attempts.
    A step other than a print may fail: a command that exits with an error
    makes Spack's [Executable] raise [ProcessError], and entering a
    directory ([mkdirp] and [chdir]) or copying a file raises [OSError].
    Whether a step succeeds may depend on everything done before it:
    [ok] is given the events so far and the step.  [glob] is [glob.glob].
    Leaving a [with] block changes back to the directory before it and is
    not recorded. *)

Inductive event :=
| Print (line : string)
| EnterDir (dir : string)
| Run (exe : string) (args : list string)
| Copy (src dest : string).

Record Tools := {
  ok : list event -> event -> bool;
  glob : string -> list string
}.

Inductive check_result :=
| Checked
| CheckRaised (e : exn)
| ProcessError (exe : string)
| OSError (path : string).

Definition step : Type := list event -> list event * check_result.

(** Statement after statement: the second runs if the first did not
    raise. *)
Definition seq (a b : step) : step :=
  fun evs => match a evs with
             | (evs', Checked) => b evs'
             | (evs', failed) => (evs', failed)
             end.

Declare Scope check_scope.
Delimit Scope check_scope with check.
Notation "a >>> b" := (seq a b) (at level 100, b at level 200, right associativity)
  : check_scope.

(** [print]. *)
Definition emit (e : event) : step := fun evs => ((evs ++ [e])%list, Checked).

(** What a step raises when it fails.  A print is never attempted (see
    [emit]), so nothing is read from its line here. *)
Definition failure (e : event) : check_result :=
  match e with
  | Run exe _ => ProcessError exe
  | EnterDir dir => OSError dir
  | Copy src _ => OSError src
  | Print _ => Checked
  end.

(** A step that may fail: it is recorded, and raises if [ok] says so. *)
Definition attempt (t : Tools) (e : event) : step :=
  fun evs => ((evs ++ [e])%list, if ok t evs e then Checked else failure e).

(** Entering [with working_dir(dir, create=True)]. *)
Definition working_dir (t : Tools) (dir : string) : step := attempt t (EnterDir dir).

(** Calling the executable [exe] with [args]. *)
Definition run (t : Tools) (exe : string) (args : list string) : step :=
  attempt t (Run exe args).

(** [shutil.copy(src, dest)]. *)
Definition copy (t : Tools) (src dest : string) : step := attempt t (Copy src dest).

(** [spec[name]], then the rest with the node. *)
Definition with_node (spec : Spec) (name : string) (k : Dep -> step) : step :=
  match nodes spec !! name with
  | Some d => k d
  | None => fun evs => (evs, CheckRaised (KeyError name))
  end.

(** The loop of lines 137-138. *)
Fixpoint copy_all (t : Tools) (files : list string) : step :=
  match files with
  | [] => fun evs => (evs, Checked)
  | example_file :: rest => (copy t example_file "." >>> copy_all t rest)%check
  end.

(** [join_path] of the install prefix, examples, ascent and [name]. *)
Definition example_dir (install_prefix name : string) : string :=
  join_path (join_path (join_path install_prefix "examples") "ascent") name.

(** [check_install(self)], with [install_prefix] for [self.spec.prefix]. *)
Definition check_install (t : Tools) (spec : Spec) (install_prefix : string)
  : list event * check_result :=
  (emit (Print "Checking Ascent installation...") >>>
   let example_src_dir := example_dir install_prefix "using-with-cmake" in
   emit (Print "Checking using-with-cmake example...") >>>
   working_dir t "check-ascent-using-with-cmake-example" >>>
   with_node spec "conduit" (fun conduit =>
   with_node spec "vtkm" (fun vtkm =>
   with_node spec "vtkh" (fun vtkh =>
   let cmake_args := ["-DASCENT_DIR=" +:+ install_prefix;
                      "-DCONDUIT_DIR=" +:+ dep_prefix conduit;
                      "-DVTKM_DIR=" +:+ dep_prefix vtkm;
                      "-DVTKH_DIR=" +:+ dep_prefix vtkh;
                      example_src_dir] in
   run t "cmake" cmake_args >>>
   run t "make" [] >>>
   run t "./ascent_render_example" [] >>>
   emit (Print "Checking using-with-make example...") >>>
   let example_src_dir := example_dir install_prefix "using-with-make" in
   let example_files := glob t (join_path example_src_dir "*") in
   working_dir t "check-ascent-using-with-make-example" >>>
   copy_all t example_files >>>
   run t "make" ["ASCENT_DIR=" +:+ install_prefix] >>>
   run t "./ascent_render_example" [])))
  )%check [].

(** The commands among the events, and the copies. *)
Fixpoint runs_of (evs : list event) : list (string * list string) :=
  match evs with
  | [] => []
  | Run exe args :: evs' => (exe, args) :: runs_of evs'
  | _ :: evs' => runs_of evs'
  end.

Fixpoint copies_of (evs : list event) : list (string * string) :=
  match evs with
  | [] => []
  | Copy src dest :: evs' => (src, dest) :: copies_of evs'
  | _ :: evs' => copies_of evs'
  end.

(** *** A list of steps run in order

    [execute] takes the steps of a list one after the other, from the
    events [evs] on, and stops at the first one that fails. *)
Definition perform (t : Tools) (e : event) : step :=
  match e with
  | Print _ => emit e
  | _ => attempt t e
  end.

Fixpoint execute (t : Tools) (plan : list event) : step :=
  match plan with
  | [] => fun evs => (evs, Checked)
  | e :: rest => (perform t e >>> execute t rest)%check
  end.

(** Whether every step of [plan] succeeds when the steps are taken in
    order from the events [evs] on. *)
Fixpoint steps_ok (t : Tools) (evs : list event) (plan : list event) : bool :=
  match plan with
  | [] => true
  | e :: rest =>
      match e with Print _ => true | _ => ok t evs e end
      && steps_ok t (evs ++ [e])%list rest
  end.

(** The copies attempted when the files are copied in order from the
    events [evs] on, up to and including the first copy that fails. *)
Fixpoint attempted_copies (t : Tools) (evs : list event) (files : list string)
  : list (string * string) :=
  match files with
  | [] => []
  | f :: rest =>
      (f, ".") :: (if ok t evs (Copy f ".")
                   then attempted_copies t (evs ++ [Copy f "."])%list rest
                   else [])
  end.

(** The arguments given to cmake (lines 119-123). *)
Definition cmake_args_of (install_prefix : string) (conduit vtkm vtkh : Dep)
  : list string :=
  ["-DASCENT_DIR=" +:+ install_prefix;
   "-DCONDUIT_DIR=" +:+ dep_prefix conduit;
   "-DVTKM_DIR=" +:+ dep_prefix vtkm;
   "-DVTKH_DIR=" +:+ dep_prefix vtkh;
   example_dir install_prefix "using-with-cmake"].

(** The steps of [check_install] in the order of the code: the eight
    before the copy loop, one copy for each example file, and the two
    commands after the loop. *)
Definition steps_before_copies (install_prefix : string) (conduit vtkm vtkh : Dep)
  : list event :=
  [Print "Checking Ascent installation...";
   Print "Checking using-with-cmake example...";
   EnterDir "check-ascent-using-with-cmake-example";
   Run "cmake" (cmake_args_of install_prefix conduit vtkm vtkh);
   Run "make" [];
   Run "./ascent_render_example" [];
   Print "Checking using-with-make example...";
   EnterDir "check-ascent-using-with-make-example"].

Definition steps_after_copies (install_prefix : string) : list event :=
  [Run "make" ["ASCENT_DIR=" +:+ install_prefix];
   Run "./ascent_render_example" []].

Definition check_steps (install_prefix : string) (conduit vtkm vtkh : Dep)
    (example_files : list string) : list event :=
  (steps_before_copies install_prefix conduit vtkm vtkh
   ++ map (fun f => Copy f ".") example_files
   ++ steps_after_copies install_prefix)%list.

(** The five commands of [check_install], in the order of the code. *)
Definition check_commands (install_prefix : string) (conduit vtkm vtkh : Dep)
  : list (string * list string) :=
  [("cmake", cmake_args_of install_prefix conduit vtkm vtkh);
   ("make", []);
   ("./ascent_render_example", []);
   ("make", ["ASCENT_DIR=" +:+ install_prefix]);
   ("./ascent_render_example", [])].

(** The three nodes [check_install] asks the DAG for, in the order of
    lines 120-122. *)
Definition checked_nodes : list string := ["conduit"; "vtkm"; "vtkh"].

(** A DAG that also has the three nodes the check asks for, and tools
    that all succeed. *)
Definition spec_with_ascent : Spec :=
  {| architecture := architecture Sample.spec_mpi;
     compiler := compiler Sample.spec_mpi;
     contains := contains Sample.spec_mpi;
     nodes := <["conduit" := Sample.lib "/opt/conduit"]>
                (<["vtkm" := Sample.lib "/opt/vtkm"]>
                   (<["vtkh" := Sample.lib "/opt/vtkh"]> Sample.dag)) |}.

(** A DAG with conduit and neither vtkm nor vtkh. *)
Definition spec_with_conduit : Spec :=
  {| architecture := architecture Sample.spec_mpi;
     compiler := compiler Sample.spec_mpi;
     contains := contains Sample.spec_mpi;
     nodes := <["conduit" := Sample.lib "/opt/conduit"]> Sample.dag |}.

Definition tools_ok : Tools :=
  {| ok := fun _ _ => true;
     glob := fun _ => ["/opt/sw4/examples/ascent/using-with-make/Makefile";
                       "/opt/sw4/examples/ascent/using-with-make/example.cpp"] |}.

(** Tools whose make fails. *)
Definition tools_make_fails : Tools :=
  {| ok := fun _ e => match e with
                      | Run exe _ => negb (exe =? "make")
                      | _ => true
                      end;
     glob := glob tools_ok |}.

(** Tools with which the example program built by make fails, the one
    built by cmake having run: the fifth command fails, after four that
    succeed. *)
Definition tools_second_example_fails : Tools :=
  {| ok := fun evs e => match e with
                        | Run _ _ => Nat.ltb (length (runs_of evs)) 4
                        | _ => true
                        end;
     glob := glob tools_ok |}.

(** Tools with which the second example file cannot be copied. *)
Definition tools_copy_fails : Tools :=
  {| ok := fun evs e => match e with
                        | Copy _ _ => Nat.ltb (length (copies_of evs)) 1
                        | _ => true
                        end;
     glob := glob tools_ok |}.

(** The environment variables read by lines 165-171, in the order they
    are read: SPACK_FC only when the compiler has a Fortran component. *)
Definition compiler_variables (w : World) : list string :=
  (["SPACK_CC"; "SPACK_CXX"]
   ++ (if truthy (compiler_fc w) then ["SPACK_FC"] else []))%list.

(** The sample machine without SPACK_CXX in the environment. *)
Definition quartz_no_cxx : World :=
  {| env := delete "SPACK_CXX" (env Sample.quartz);
     hostname := hostname Sample.quartz;
     which := which Sample.quartz;
     isfile := isfile Sample.quartz;
     compiler_fc := compiler_fc Sample.quartz;
     abspath := abspath Sample.quartz |}.

(** The sample spec with the cmake variant on and no cmake node. *)
Definition spec_cmake_variant_no_node : Spec :=
  {| architecture := architecture Sample.spec_mpi;
     compiler := compiler Sample.spec_mpi;
     contains := fun q => (q =? "+cmake") || contains Sample.spec_mpi q;
     nodes := delete "cmake" Sample.dag |}.

(** * Properties *)

(** ** Running the generators symbolically *)

(** The ON/OFF pairs write the same entry in both branches. *)
Lemma if_write_entry (b : bool) (name : string) :
  (if b then write_entry name "ON" else write_entry name "OFF")
  = write_entry name (on_off b).
Proof. destruct b; reflexivity. Qed.

(** [exec_step] reduces the monad operations and then decides the test the
    run is waiting for: it follows the scrutinees of the outermost pending
    [match] down to the lookup or flag at its head and cases on it. *)
Ltac head_test x :=
  lazymatch x with
  | context [match ?y with _ => _ end] => head_test y
  | _ => x
  end.

Ltac exec_step :=
  cbv [bind ret raise write write_chunk write_entry open_w tty_info init
       cfg_file tty app env_get spec_get andb orb negb];
  lazymatch goal with
  | |- false = true -> _ => discriminate
  | |- true = true -> _ => intros _
  | |- context [match ?x with _ => _ end] =>
      let y := head_test x in destruct y eqn:?
  end.

Ltac unfold_ok :=
  unfold host_config_ok, makefile_ok, compiler_ok, cmake_found, resolved_cmake,
    mpi_block_ok, has_key, mpiexe_bin_of.

(** [exec_unfold] exposes the lookups of the run and of its precondition;
    a proof may then rewrite with what it knows of the flags before
    [exec_run] cases on the rest. *)
Ltac exec_unfold :=
  unfold_ok;
  unfold create_host_config, makefile_inc, compiler_info, env_get, spec_get;
  rewrite ?if_write_entry.

Ltac exec_run := repeat exec_step.

Ltac exec := exec_unfold; exec_run.

(** ** The cache-entry helper *)

Lemma cache_vtype_bool (value : string) :
  cache_vtype value None = "BOOL" <-> value = "ON" \/ value = "OFF".
Proof.
  unfold cache_vtype.
  destruct (String.eqb_spec value "ON") as [->|Hon]; [simpl; tauto|].
  destruct (String.eqb_spec value "OFF") as [->|Hoff]; [simpl; tauto|].
  simpl. split; [discriminate | tauto].
Qed.

Lemma cache_vtype_path (value : string) :
  cache_vtype value None = "PATH" <-> ~ (value = "ON" \/ value = "OFF").
Proof.
  rewrite <- cache_vtype_bool. unfold cache_vtype.
  destruct ((value =? "ON") || (value =? "OFF")).
  - split; [discriminate | intros H; exfalso; apply H; reflexivity].
  - split; [intros _; discriminate | reflexivity].
Qed.

(** C1.  A cache entry written without an explicit type (every call in
    the package is one: [render] passes [None]) has the type token BOOL
    exactly when its value is ON or OFF, and PATH exactly when it is
    neither; that token is the one placed after CACHE in the line. *)
Theorem cmake_cache_entry_type_inference (name value : string) :
  (cache_vtype value None = "BOOL" <-> value = "ON" \/ value = "OFF")
  /\ (cache_vtype value None = "PATH" <-> ~ (value = "ON" \/ value = "OFF"))
  /\ render (CacheEntry name value)
     = "set(" +:+ name +:+ " " +:+ dq +:+ value +:+ dq +:+ " CACHE "
         +:+ cache_vtype value None +:+ dq +:+ dq +:+ ")" +:+ nl +:+ nl.
Proof.
  split; [apply cache_vtype_bool|].
  split; [apply cache_vtype_path|]. reflexivity.
Qed.

(** Cancelling a common beginning of two strings. *)
Lemma append_cancel_l (p a b : string) : p +:+ a = p +:+ b -> a = b.
Proof. apply String.app_inj. Qed.

(** Whatever the arguments, the line the helper returns is not the
    documented one: after the type token the code continues with a double
    quote, the documented form with a space. *)
Lemma cmake_cache_entry_never_documented (name value : string) (vtype : option string) :
  cmake_cache_entry name value vtype
  <> Documented.cache_entry_line name value (cache_vtype value vtype).
Proof.
  unfold cmake_cache_entry, Documented.cache_entry_line. intros H.
  repeat (apply append_cancel_l in H). discriminate H.
Qed.

(** C2.  The line written for [ENABLE_MPI OFF]: the type token BOOL is
    followed directly by the two double quotes, without the space of the
    documented form, so the line differs from the documented one.  The two
    newlines (the blank line) are there. *)
Theorem cmake_cache_entry_missing_space :
  cmake_cache_entry "ENABLE_MPI" "OFF" None
  = "set(ENABLE_MPI " +:+ dq +:+ "OFF" +:+ dq +:+ " CACHE BOOL" +:+ dq +:+ dq
      +:+ ")" +:+ nl +:+ nl
  /\ Documented.cache_entry_line "ENABLE_MPI" "OFF" "BOOL"
  = "set(ENABLE_MPI " +:+ dq +:+ "OFF" +:+ dq +:+ " CACHE BOOL " +:+ dq +:+ dq
      +:+ ")" +:+ nl +:+ nl
  /\ cmake_cache_entry "ENABLE_MPI" "OFF" None
     <> Documented.cache_entry_line "ENABLE_MPI" "OFF" "BOOL".
Proof.
  split; [reflexivity|]. split; [reflexivity|]. vm_compute. discriminate.
Qed.

(** ** The MPI block of the host-config *)

Lemma not_in_names (names : list string) (n : string) :
  existsb (String.eqb n) names = false -> ~ In n names.
Proof.
  intros H Hin. apply not_true_iff_false in H. apply H.
  apply existsb_exists. exists n. split; [assumption | apply String.eqb_refl].
Qed.

(** C3.  With the mpi variant off, a run that has its lookups returns and
    the only MPI-related entry it wrote is ENABLE_MPI with value OFF; none
    of the wrapper or launcher entries is in the file. *)
Theorem mpi_off_single_entry (w : World) (spec : Spec) :
  host_config_ok w spec = true ->
  contains spec "+mpi" = false ->
  exists st path,
    create_host_config w spec init = (st, Returned path)
    /\ mpi_entries (chunks_of st) = [("ENABLE_MPI", "OFF")]
    /\ forall n,
         In n ["MPI_C_COMPILER"; "MPI_CXX_COMPILER"; "MPI_Fortran_COMPILER";
               "MPIEXEC"; "MPIEXEC_EXECUTABLE"] ->
         ~ In n (entry_names (chunks_of st)).
Proof.
  intros Hok Hmpi. revert Hok. exec_unfold. rewrite Hmpi. exec_run.
  all: eexists _, _; split; [reflexivity|].
  all: split; [reflexivity|].
  all: apply (proj1 (List.Forall_forall _ _));
    repeat constructor; apply not_in_names; reflexivity.
Qed.

(** The run of C3 on the sample machine. *)
Lemma mpi_off_single_entry_witness :
  host_config_ok Sample.quartz Sample.spec_serial = true
  /\ contains Sample.spec_serial "+mpi" = false
  /\ exists st path,
       create_host_config Sample.quartz Sample.spec_serial init = (st, Returned path)
       /\ mpi_entries (chunks_of st) = [("ENABLE_MPI", "OFF")]
       /\ forall n,
            In n ["MPI_C_COMPILER"; "MPI_CXX_COMPILER"; "MPI_Fortran_COMPILER";
                  "MPIEXEC"; "MPIEXEC_EXECUTABLE"] ->
            ~ In n (entry_names (chunks_of st)).
Proof.
  split; [vm_compute; reflexivity|]. split; [reflexivity|].
  apply mpi_off_single_entry; [vm_compute; reflexivity | reflexivity].
Defined.

(** The launcher entry of a run that has its lookups.  With the mpi
    variant on, such a run returns, and the launcher entry follows the
    probe of line 269: when the file
    [<mpi prefix>/bin/mpiexec] exists, exactly one launcher entry is
    written, under MPIEXEC_EXECUTABLE if the cmake node satisfies the
    constraint 3.10-or-later and under MPIEXEC if it does not; when the
    file does not exist, no launcher entry is written and the run still
    returns (the precondition asks nothing of the cmake node then). *)
Theorem mpiexec_entry_key (w : World) (spec : Spec) (mpi : Dep) :
  host_config_ok w spec = true ->
  contains spec "+mpi" = true ->
  nodes spec !! "mpi" = Some mpi ->
  exists st path,
    create_host_config w spec init = (st, Returned path)
    /\ (isfile w (mpiexe_bin_of mpi) = true ->
        exists cmake,
          nodes spec !! "cmake" = Some cmake
          /\ mpiexec_entries (chunks_of st)
             = [(if satisfies cmake "@3.10:"
                 then "MPIEXEC_EXECUTABLE" else "MPIEXEC",
                 mpiexe_bin_of mpi)])
    /\ (isfile w (mpiexe_bin_of mpi) = false ->
        mpiexec_entries (chunks_of st) = []).
Proof.
  intros Hok Hmpi Hnode. revert Hok. exec_unfold. rewrite Hmpi, Hnode.
  exec_run.
  all: eexists _, _; split; [reflexivity|].
  all: split; [intros Hf | intros Hf; try discriminate Hf; try reflexivity].
  all: try discriminate Hf.
  all: eexists; split; [reflexivity|].
  all: match goal with H : satisfies _ _ = _ |- _ => rewrite H end; reflexivity.
Qed.

(** On the sample machine the launcher exists and cmake is 3.12. *)
Lemma mpiexec_entry_key_witness :
  host_config_ok Sample.quartz Sample.spec_mpi = true
  /\ contains Sample.spec_mpi "+mpi" = true
  /\ nodes Sample.spec_mpi !! "mpi" = Some Sample.mvapich
  /\ exists st path,
       create_host_config Sample.quartz Sample.spec_mpi init = (st, Returned path)
       /\ (isfile Sample.quartz (mpiexe_bin_of Sample.mvapich) = true ->
           exists cmake,
             nodes Sample.spec_mpi !! "cmake" = Some cmake
             /\ mpiexec_entries (chunks_of st)
                = [(if satisfies cmake "@3.10:"
                    then "MPIEXEC_EXECUTABLE" else "MPIEXEC",
                    mpiexe_bin_of Sample.mvapich)])
       /\ (isfile Sample.quartz (mpiexe_bin_of Sample.mvapich) = false ->
           mpiexec_entries (chunks_of st) = []).
Proof.
  split; [vm_compute; reflexivity|]. split; [reflexivity|].
  split; [vm_compute; reflexivity|].
  apply mpiexec_entry_key;
    [vm_compute; reflexivity | reflexivity | vm_compute; reflexivity].
Defined.

(** With cmake 3.8 the launcher goes under MPIEXEC. *)
Example launcher_key_old_cmake :
  exists st path,
    create_host_config Sample.quartz Sample.spec_old_cmake init = (st, Returned path)
    /\ mpiexec_entries (chunks_of st) = [("MPIEXEC", "/opt/mpi/bin/mpiexec")].
Proof. eexists _, _. split; vm_compute; reflexivity. Qed.

(** Without the launcher file the cmake node is not looked at: the run
    returns even if the DAG has none. *)
Example no_launcher_no_cmake_node :
  exists st path,
    create_host_config Sample.quartz_no_launcher Sample.spec_no_cmake_node init
    = (st, Returned path)
    /\ mpiexec_entries (chunks_of st) = [].
Proof. eexists _, _. split; vm_compute; reflexivity. Qed.

(** With the launcher file and no cmake node, line 272 raises: this is
    the lookup that [mpi_block_ok] asks for. *)
Example launcher_needs_cmake_node :
  snd (create_host_config Sample.quartz Sample.spec_no_cmake_node init)
  = Raised (KeyError "cmake").
Proof. vm_compute. reflexivity. Qed.

(** C4.  The launcher entry when the DAG has no cmake node.  Lines
    188-195 take cmake from the search path when the cmake variant is off,
    so a run does not need a cmake node; line 272 asks the DAG for one all
    the same.  With the mpi variant on and the launcher file there, a run
    that has every other lookup raises the [KeyError] of cmake at line
    272: the file is left with ENABLE_MPI and the three wrapper entries
    and with no launcher entry, neither MPIEXEC_EXECUTABLE nor MPIEXEC,
    and nothing is logged. *)
Theorem launcher_without_cmake_node (w : World) (spec : Spec) (mpi : Dep)
    (cmake_exe : string) :
  compiler_ok w = true ->
  contains spec "+cmake" = false ->
  which w "cmake" = Some cmake_exe ->
  has_key (nodes spec) "netlib-lapack" = true ->
  has_key (nodes spec) "blas" = true ->
  has_key (nodes spec) "umpire" = true ->
  contains spec "+mpi" = true ->
  nodes spec !! "mpi" = Some mpi ->
  isfile w (mpiexe_bin_of mpi) = true ->
  nodes spec !! "cmake" = None ->
  exists st,
    create_host_config w spec init = (st, Raised (KeyError "cmake"))
    /\ file_name st = Some (host_cfg_fname w spec)
    /\ mpi_entries (chunks_of st)
       = [("ENABLE_MPI", "ON"); ("MPI_C_COMPILER", mpicc mpi);
          ("MPI_CXX_COMPILER", mpicxx mpi);
          ("MPI_Fortran_COMPILER", mpifc mpi)]
    /\ mpiexec_entries (chunks_of st) = []
    /\ log_lines st = [].
Proof.
  intros Hok Hvar Hwhich Hl Hb Hu Hmpi Hnode Hfile Hcmake.
  revert Hok Hl Hb Hu Hfile. unfold host_cfg_fname. exec_unfold.
  rewrite Hvar, Hwhich, Hmpi, Hnode, Hcmake. exec_run.
  all: intros; try discriminate.
  all: eexists; split; [reflexivity|]; repeat split; reflexivity.
Qed.

(** The sample machine finds cmake on the search path and has the
    launcher; the sample DAG without its cmake node. *)
Lemma launcher_without_cmake_node_witness :
  compiler_ok Sample.quartz = true
  /\ contains Sample.spec_no_cmake_node "+cmake" = false
  /\ which Sample.quartz "cmake" = Some "/usr/bin/cmake"
  /\ contains Sample.spec_no_cmake_node "+mpi" = true
  /\ nodes Sample.spec_no_cmake_node !! "mpi" = Some Sample.mvapich
  /\ isfile Sample.quartz (mpiexe_bin_of Sample.mvapich) = true
  /\ nodes Sample.spec_no_cmake_node !! "cmake" = None
  /\ exists st,
       create_host_config Sample.quartz Sample.spec_no_cmake_node init
       = (st, Raised (KeyError "cmake"))
       /\ file_name st
          = Some (host_cfg_fname Sample.quartz Sample.spec_no_cmake_node)
       /\ mpi_entries (chunks_of st)
          = [("ENABLE_MPI", "ON"); ("MPI_C_COMPILER", mpicc Sample.mvapich);
             ("MPI_CXX_COMPILER", mpicxx Sample.mvapich);
             ("MPI_Fortran_COMPILER", mpifc Sample.mvapich)]
       /\ mpiexec_entries (chunks_of st) = []
       /\ log_lines st = [].
Proof.
  repeat (split; [vm_compute; reflexivity|]).
  apply (launcher_without_cmake_node Sample.quartz Sample.spec_no_cmake_node
           Sample.mvapich "/usr/bin/cmake"); vm_compute; reflexivity.
Defined.

(** ** When the generators return *)

(** [host_config_ok] is exactly the condition under which
    [create_host_config] returns. *)
Lemma create_host_config_returns_iff (w : World) (spec : Spec) :
  host_config_ok w spec = true
  <-> exists st path, create_host_config w spec init = (st, Returned path).
Proof.
  split.
  - exec. all: eexists _, _; reflexivity.
  - intros [st [path H]]. revert H. exec.
    all: try reflexivity.
    all: intros; discriminate.
Qed.

(** [makefile_ok] is exactly the condition under which [makefile_inc]
    returns. *)
Lemma makefile_inc_returns_iff (w : World) (spec : Spec) :
  makefile_ok w spec = true
  <-> exists st path, makefile_inc w spec init = (st, Returned path).
Proof.
  split.
  - exec. all: eexists _, _; reflexivity.
  - intros [st [path H]]. revert H. exec.
    all: try reflexivity.
    all: intros; discriminate.
Qed.

(** ** File names *)

(** Whatever happens later in the run, a file that [create_host_config]
    created has the name built at lines 197-199. *)
Lemma create_host_config_file_name (w : World) (spec : Spec) (f : string) :
  file_name (fst (create_host_config w spec init)) = Some f ->
  f = host_cfg_fname w spec.
Proof.
  unfold host_cfg_fname. exec.
  all: cbn; intros H; first [discriminate H | injection H as <-; reflexivity].
Qed.

Lemma makefile_inc_file_name (w : World) (spec : Spec) (f : string) :
  file_name (fst (makefile_inc w spec init)) = Some f ->
  f = make_inc_fname w spec.
Proof.
  unfold make_inc_fname. exec.
  all: cbn; intros H; first [discriminate H | injection H as <-; reflexivity].
Qed.

(** C5, as the code has it.  A run of each method that has its lookups
    creates the file named host-platform-compiler followed by
    [-ascent.cmake], respectively [make-] host-platform-compiler followed by
    [-ascent.inc], where the platform is SYS_TYPE from the environment or
    else the architecture of the spec, and returns the absolute path of
    that name. *)
Theorem output_file_names (w : World) (spec : Spec) :
  host_config_ok w spec = true ->
  makefile_ok w spec = true ->
  (exists st,
     create_host_config w spec init
     = (st, Returned (abspath w (hostname w +:+ "-" +:+ sys_type_of w spec
                                   +:+ "-" +:+ compiler spec +:+ "-ascent.cmake")))
     /\ file_name st
        = Some (hostname w +:+ "-" +:+ sys_type_of w spec +:+ "-"
                  +:+ compiler spec +:+ "-ascent.cmake"))
  /\ (exists st,
        makefile_inc w spec init
        = (st, Returned (abspath w ("make-" +:+ hostname w +:+ "-"
                                      +:+ sys_type_of w spec +:+ "-"
                                      +:+ compiler spec +:+ "-ascent.inc")))
        /\ file_name st
           = Some ("make-" +:+ hostname w +:+ "-" +:+ sys_type_of w spec +:+ "-"
                     +:+ compiler spec +:+ "-ascent.inc")).
Proof.
  intros Hhost Hmake. split.
  - clear Hmake. revert Hhost. exec.
    all: eexists; split; reflexivity.
  - clear Hhost. revert Hmake. exec.
    all: eexists; split; reflexivity.
Qed.

Lemma output_file_names_witness :
  host_config_ok Sample.quartz Sample.spec_mpi = true
  /\ makefile_ok Sample.quartz Sample.spec_mpi = true
  /\ (exists st,
        create_host_config Sample.quartz Sample.spec_mpi init
        = (st, Returned (abspath Sample.quartz
                           (hostname Sample.quartz +:+ "-"
                              +:+ sys_type_of Sample.quartz Sample.spec_mpi
                              +:+ "-" +:+ compiler Sample.spec_mpi
                              +:+ "-ascent.cmake")))
        /\ file_name st
           = Some (hostname Sample.quartz +:+ "-"
                     +:+ sys_type_of Sample.quartz Sample.spec_mpi +:+ "-"
                     +:+ compiler Sample.spec_mpi +:+ "-ascent.cmake"))
  /\ (exists st,
        makefile_inc Sample.quartz Sample.spec_mpi init
        = (st, Returned (abspath Sample.quartz
                           ("make-" +:+ hostname Sample.quartz +:+ "-"
                              +:+ sys_type_of Sample.quartz Sample.spec_mpi
                              +:+ "-" +:+ compiler Sample.spec_mpi
                              +:+ "-ascent.inc")))
        /\ file_name st
           = Some ("make-" +:+ hostname Sample.quartz +:+ "-"
                     +:+ sys_type_of Sample.quartz Sample.spec_mpi +:+ "-"
                     +:+ compiler Sample.spec_mpi +:+ "-ascent.inc")).
Proof.
  split; [vm_compute; reflexivity|]. split; [vm_compute; reflexivity|].
  apply output_file_names; vm_compute; reflexivity.
Defined.

(** C5, as documented, fails: on the sample machine the two files are
    named with the suffixes [-ascent.cmake] and [-ascent.inc], not with
    [-host-config.cmake] and [-include.inc]. *)
Lemma file_names_not_documented :
  exists st1 p1 st2 p2,
    create_host_config Sample.quartz Sample.spec_mpi init = (st1, Returned p1)
    /\ makefile_inc Sample.quartz Sample.spec_mpi init = (st2, Returned p2)
    /\ file_name st1 = Some "quartz-linux-rhel7-x86_64-gcc@7.3.0-ascent.cmake"
    /\ file_name st1
       <> Some (Documented.cmake_file_name "quartz" "linux-rhel7-x86_64" "gcc@7.3.0")
    /\ file_name st2 = Some "make-quartz-linux-rhel7-x86_64-gcc@7.3.0-ascent.inc"
    /\ file_name st2
       <> Some (Documented.make_file_name "quartz" "linux-rhel7-x86_64" "gcc@7.3.0").
Proof.
  eexists _, _, _, _.
  split; [vm_compute; reflexivity|]. split; [vm_compute; reflexivity|].
  split; [reflexivity|]. split; [vm_compute; discriminate|].
  split; [reflexivity|]. vm_compute; discriminate.
Qed.

(** ** Entry names of one pass *)

(** On every run that returns, UMPIRE_DIR is written twice (lines 248 and
    249), next to one LAPACK_DIR and one BLAS_DIR. *)
Lemma core_dependency_entries (w : World) (spec : Spec) :
  host_config_ok w spec = true ->
  exists st path,
    create_host_config w spec init = (st, Returned path)
    /\ count_occ string_dec (entry_names (chunks_of st)) "LAPACK_DIR" = 1
    /\ count_occ string_dec (entry_names (chunks_of st)) "BLAS_DIR" = 1
    /\ count_occ string_dec (entry_names (chunks_of st)) "UMPIRE_DIR" = 2.
Proof.
  exec.
  all: eexists _, _; split; [reflexivity|].
  all: repeat split; reflexivity.
Qed.

(** C6.  The pass on the sample machine: the entry names of the file
    written contain UMPIRE_DIR twice, so they are not free of duplicates. *)
Theorem umpire_dir_entry_twice :
  exists st path,
    create_host_config Sample.quartz Sample.spec_mpi init = (st, Returned path)
    /\ entry_names (chunks_of st)
       = ["CMAKE_C_COMPILER"; "CMAKE_CXX_COMPILER"; "BUILD_SHARED_LIBS";
          "ENABLE_TESTS"; "LAPACK_DIR"; "BLAS_DIR"; "UMPIRE_DIR"; "UMPIRE_DIR";
          "ENABLE_MPI"; "MPI_C_COMPILER"; "MPI_CXX_COMPILER";
          "MPI_Fortran_COMPILER"; "MPIEXEC_EXECUTABLE"; "ENABLE_CUDA";
          "ENABLE_OPENMP"]
    /\ count_occ string_dec (entry_names (chunks_of st)) "UMPIRE_DIR" = 2
    /\ ~ List.NoDup (entry_names (chunks_of st)).
Proof.
  eexists _, _. split; [vm_compute; reflexivity|].
  split; [reflexivity|]. split; [reflexivity|].
  intros Hnd. rewrite (List.NoDup_count_occ string_dec) in Hnd.
  specialize (Hnd "UMPIRE_DIR"). vm_compute in Hnd. lia.
Qed.

(** ** Locating cmake *)

(** The only [RuntimeError] of a run is the one of line 194: it needs the
    cmake variant off and nothing found on the search path, it is raised
    before the file is created, and its message is fixed. *)
Lemma runtime_error_only_from_cmake (w : World) (spec : Spec) (st : Sys) (msg : string) :
  create_host_config w spec init = (st, Raised (RuntimeError msg)) ->
  contains spec "+cmake" = false /\ which w "cmake" = None
  /\ st = init /\ RuntimeError msg = cmake_not_found.
Proof.
  exec.
  all: intros H; try discriminate H.
  all: injection H as <- <-; repeat split; assumption || reflexivity.
Qed.

Lemma cmake_missing_raises (w : World) (spec : Spec) :
  compiler_ok w = true ->
  contains spec "+cmake" = false ->
  which w "cmake" = None ->
  create_host_config w spec init = (init, Raised cmake_not_found).
Proof.
  intros Hok Hvar Hwhich. revert Hok. exec_unfold. rewrite Hvar, Hwhich.
  exec_run.
  all: reflexivity.
Qed.

Lemma cmake_resolved_proceeds (w : World) (spec : Spec) (exe : string) :
  compiler_ok w = true ->
  resolved_cmake w spec = Some exe ->
  file_name (fst (create_host_config w spec init)) = Some (host_cfg_fname w spec)
  /\ In (cmake_exe_line exe) (chunks_of (fst (create_host_config w spec init)))
  /\ forall msg, snd (create_host_config w spec init) <> Raised (RuntimeError msg).
Proof.
  intros Hok Hexe. revert Hok Hexe. unfold host_cfg_fname, cmake_exe_line. exec.
  all: intros Hexe; try discriminate Hexe; injection Hexe as <-.
  all: split; [reflexivity|]; split; [cbn; tauto | intros msg; cbn; discriminate].
Qed.

(** C7.  Given the compilers in the environment, the run raises the
    cmake-not-found [RuntimeError] exactly when the cmake variant is off and
    the search path has no cmake; that error comes before the file is
    created; and when a cmake path is resolved (from the cmake node with
    the variant on, from the search path with it off) no [RuntimeError] is
    raised, the file is created and the comment line with the path is
    written. *)
Theorem cmake_lookup_error (w : World) (spec : Spec) :
  compiler_ok w = true ->
  ((exists st, create_host_config w spec init = (st, Raised cmake_not_found))
   <-> contains spec "+cmake" = false /\ which w "cmake" = None)
  /\ (forall st msg,
        create_host_config w spec init = (st, Raised (RuntimeError msg)) ->
        st = init /\ RuntimeError msg = cmake_not_found)
  /\ (forall exe,
        resolved_cmake w spec = Some exe ->
        file_name (fst (create_host_config w spec init))
        = Some (host_cfg_fname w spec)
        /\ In (cmake_exe_line exe)
             (chunks_of (fst (create_host_config w spec init)))
        /\ forall msg,
             snd (create_host_config w spec init) <> Raised (RuntimeError msg)).
Proof.
  intros Hok. split; [split|split].
  - intros [st H]. apply runtime_error_only_from_cmake in H. tauto.
  - intros [Hvar Hwhich]. exists init. apply cmake_missing_raises; assumption.
  - intros st msg H. apply runtime_error_only_from_cmake in H. tauto.
  - intros exe Hexe. apply cmake_resolved_proceeds; assumption.
Qed.

(** The theorem of C7 on the sample machine without cmake. *)
Lemma cmake_lookup_error_witness :
  compiler_ok Sample.quartz_no_cmake = true
  /\ create_host_config Sample.quartz_no_cmake Sample.spec_mpi init
     = (init, Raised cmake_not_found).
Proof.
  split; [vm_compute; reflexivity|].
  destruct (cmake_lookup_error Sample.quartz_no_cmake Sample.spec_mpi)
    as [[_ Hraise] [Hbefore _]]; [vm_compute; reflexivity|].
  destruct Hraise as [st Hst]; [split; reflexivity|].
  destruct (Hbefore st _ Hst) as [-> _]. exact Hst.
Defined.

(** ** The flags line of the Makefile include *)

(** C8, as the code has it.  A run of [makefile_inc] with the compilers in
    the environment and the six nodes in the DAG returns, and the value of
    EXTRA_CXX_FLAGS is, in this order: the include fragment of lapack,
    blas, umpire, raja and proj, the two macro flags, the C++ standard
    flag, the [-ccbin] fragment with the MPI C++ wrapper, and the OpenMP
    flag.  The mpi variant is not consulted: the [-ccbin] fragment is
    written whether it is on or off. *)
Theorem extra_cxx_flags_order (w : World) (spec : Spec)
    (lapack blas umpire raja proj mpi : Dep) :
  compiler_ok w = true ->
  nodes spec !! "netlib-lapack" = Some lapack ->
  nodes spec !! "blas" = Some blas ->
  nodes spec !! "umpire" = Some umpire ->
  nodes spec !! "raja" = Some raja ->
  nodes spec !! "proj" = Some proj ->
  nodes spec !! "mpi" = Some mpi ->
  exists st path,
    makefile_inc w spec init = (st, Returned path)
    /\ extra_cxx_flags st
       = [Text (" -I" +:+ dep_prefix lapack +:+ "/include/");
          Text (" -I" +:+ dep_prefix blas +:+ "/include/");
          Text (" -I" +:+ dep_prefix umpire +:+ "/include/");
          Text (" -I" +:+ dep_prefix raja +:+ "/include/");
          Text (" -I" +:+ dep_prefix proj +:+ "/include/");
          Text " -DSW4_USE_UMPIRE=1 -DSW4_RAJA_VERSION=7";
          Text " -std=c++11";
          Text (" -ccbin " +:+ mpicxx mpi);
          Text (" -Xcompiler " +:+ dq +:+ "-fopenmp" +:+ dq)]
    /\ extra_cxx_flags st
       = Documented.cxx_flags true (dep_prefix lapack) (dep_prefix blas)
           (dep_prefix umpire) (dep_prefix raja) (dep_prefix proj) (mpicxx mpi).
Proof.
  intros Hok Hlapack Hblas Humpire Hraja Hproj Hmpi. revert Hok.
  exec_unfold. rewrite Hlapack, Hblas, Humpire, Hraja, Hproj, Hmpi.
  exec_run.
  all: eexists _, _; split; [reflexivity|].
  all: split; reflexivity.
Qed.

(** The run of C8 on the sample machine, with the mpi variant off. *)
Lemma extra_cxx_flags_order_witness :
  compiler_ok Sample.quartz = true
  /\ exists st path,
       makefile_inc Sample.quartz Sample.spec_serial init = (st, Returned path)
       /\ extra_cxx_flags st
          = [Text " -I/opt/lapack/include/"; Text " -I/opt/blas/include/";
             Text " -I/opt/umpire/include/"; Text " -I/opt/raja/include/";
             Text " -I/opt/proj/include/";
             Text " -DSW4_USE_UMPIRE=1 -DSW4_RAJA_VERSION=7";
             Text " -std=c++11";
             Text " -ccbin /opt/mpi/bin/mpicxx";
             Text (" -Xcompiler " +:+ dq +:+ "-fopenmp" +:+ dq)].
Proof.
  split; [vm_compute; reflexivity|].
  destruct (extra_cxx_flags_order Sample.quartz Sample.spec_serial
              (Sample.lib "/opt/lapack") (Sample.lib "/opt/blas")
              (Sample.lib "/opt/umpire") (Sample.lib "/opt/raja")
              (Sample.lib "/opt/proj") Sample.mvapich)
    as [st [path [Hrun [Hflags _]]]]; try (vm_compute; reflexivity).
  exists st, path. split; [exact Hrun | exact Hflags].
Defined.

(** C8, as documented, fails: with the mpi variant off the [-ccbin]
    fragment is still among the flags, so the flags are not the documented
    ones for a configuration without MPI. *)
Lemma ccbin_written_with_mpi_off :
  contains Sample.spec_serial "+mpi" = false
  /\ exists st path,
       makefile_inc Sample.quartz Sample.spec_serial init = (st, Returned path)
       /\ In (Text " -ccbin /opt/mpi/bin/mpicxx") (extra_cxx_flags st)
       /\ extra_cxx_flags st
          <> Documented.cxx_flags (contains Sample.spec_serial "+mpi")
               "/opt/lapack" "/opt/blas" "/opt/umpire" "/opt/raja" "/opt/proj"
               "/opt/mpi/bin/mpicxx".
Proof.
  split; [reflexivity|]. eexists _, _. split; [vm_compute; reflexivity|].
  split; [vm_compute; tauto | vm_compute; discriminate].
Qed.

(** Without an MPI node the Makefile include stops at the CXX line (line
    359), whatever the mpi variant says. *)
Example makefile_inc_needs_mpi_node :
  snd (makefile_inc Sample.quartz Sample.spec_no_mpi_node init)
  = Raised (KeyError "mpi")
  /\ extra_cxx_flags (fst (makefile_inc Sample.quartz Sample.spec_no_mpi_node init))
     = [].
Proof. split; vm_compute; reflexivity. Qed.

(** ** The Fortran line of the Makefile include *)

(** C10.  When no Fortran compiler is detected (the compiler has no
    Fortran component, or the search for the one named by SPACK_FC finds
    nothing), a run of [makefile_inc] that has its lookups returns and
    still writes the FC assignment, directly after the Fortran comment
    line; the value is the rendering of [None], so the line is
    [FC = None], a space and a newline. *)
Theorem fc_line_without_fortran (w : World) (spec : Spec) :
  makefile_ok w spec = true ->
  (truthy (compiler_fc w) = false
   \/ exists fc, env w !! "SPACK_FC" = Some fc /\ which w fc = None) ->
  exists st path,
    makefile_inc w spec init = (st, Returned path)
    /\ make_entry "FC" (py_str None) = "FC = None " +:+ nl
    /\ exists pre post,
         chunks_of st
         = (pre ++ Text ("# fortran compiler used by spack" +:+ nl)
                :: Text ("FC = None " +:+ nl) :: post)%list.
Proof.
  intros Hok [Hfc | [fc [Hfc1 Hfc2]]]; revert Hok; exec_unfold.
  1: rewrite Hfc.
  2: rewrite Hfc1.
  all: exec_run.
  all: rewrite ?Hfc2.
  all: eexists _, _; split; [reflexivity|]; split; [reflexivity|].
  all: cbn [chunks_of cfg_file].
  all: match goal with
       | |- exists pre post, ?cs = _ =>
           exists (firstn 12 cs), (skipn 14 cs); reflexivity
       end.
Qed.

(** The run of C10 on the sample machine, whose compiler has no Fortran
    component. *)
Lemma fc_line_without_fortran_witness :
  makefile_ok Sample.quartz Sample.spec_mpi = true
  /\ exists st path,
       makefile_inc Sample.quartz Sample.spec_mpi init = (st, Returned path)
       /\ make_entry "FC" (py_str None) = "FC = None " +:+ nl
       /\ exists pre post,
            chunks_of st
            = (pre ++ Text ("# fortran compiler used by spack" +:+ nl)
                   :: Text ("FC = None " +:+ nl) :: post)%list.
Proof.
  split; [vm_compute; reflexivity|].
  apply fc_line_without_fortran; [vm_compute; reflexivity | left; reflexivity].
Defined.

(** ** Two runs on the same input *)

Lemma string_app_assoc (a b c : string) : (a +:+ b) +:+ c = a +:+ (b +:+ c).
Proof.
  induction a as [|ch a IH]; [reflexivity|].
  change (String ch ((a +:+ b) +:+ c) = String ch (a +:+ (b +:+ c))).
  rewrite IH. reflexivity.
Qed.

Lemma bytes_app (cs1 cs2 : list chunk) :
  bytes (cs1 ++ cs2) = bytes cs1 +:+ bytes cs2.
Proof.
  induction cs1 as [|c cs1 IH]; simpl; [reflexivity|].
  rewrite IH, string_app_assoc. reflexivity.
Qed.

(** The bytes of a file around one of its writes. *)
Lemma content_around (st : Sys) (pre post : list chunk) (c : chunk) :
  chunks_of st = (pre ++ c :: post)%list ->
  content st = bytes pre +:+ render c +:+ bytes post.
Proof. intros H. unfold content. rewrite H, bytes_app. reflexivity. Qed.

Lemma same_nodes_lookup (w1 w2 : World) (s1 s2 : Spec) (n : string) :
  same_inputs w1 w2 s1 s2 -> n <> "cmake" -> nodes s2 !! n = nodes s1 !! n.
Proof.
  intros H Hn.
  rewrite <- (lookup_delete_ne (nodes s1) "cmake" n) by congruence.
  rewrite <- (lookup_delete_ne (nodes s2) "cmake" n) by congruence.
  rewrite (same_nodes _ _ _ _ H). reflexivity.
Qed.

(** Rewrites what the second run reads into what the first one reads. *)
Ltac to_first_run H :=
  rewrite <- ?(same_env _ _ _ _ H), <- ?(same_hostname _ _ _ _ H),
    <- ?(same_compiler_fc _ _ _ _ H), <- ?(same_isfile _ _ _ _ H),
    <- ?(same_cwd _ _ _ _ H), <- ?(same_architecture _ _ _ _ H),
    <- ?(same_compiler _ _ _ _ H), <- ?(same_variants _ _ _ _ H),
    ?(same_nodes_lookup _ _ _ _ "netlib-lapack" H),
    ?(same_nodes_lookup _ _ _ _ "blas" H),
    ?(same_nodes_lookup _ _ _ _ "umpire" H),
    ?(same_nodes_lookup _ _ _ _ "raja" H),
    ?(same_nodes_lookup _ _ _ _ "proj" H),
    ?(same_nodes_lookup _ _ _ _ "mpi" H) by discriminate.

(** The Makefile include does not depend on where cmake is: two runs on
    the same input end in the same state with the same result, whether
    they return or raise. *)
Lemma makefile_inc_same (w1 w2 : World) (s1 s2 : Spec) :
  same_inputs w1 w2 s1 s2 ->
  makefile_inc w2 s2 init = makefile_inc w1 s1 init.
Proof.
  intros H. pose proof (same_fortran_probe _ _ _ _ H) as Hprobe.
  unfold makefile_inc, compiler_info, env_get, spec_get, sys_type_of.
  to_first_run H.
  destruct (truthy (compiler_fc w1)); [|reflexivity].
  destruct (env w1 !! "SPACK_CC"); [|reflexivity].
  destruct (env w1 !! "SPACK_CXX"); [|reflexivity].
  destruct (env w1 !! "SPACK_FC") as [fc|]; [|reflexivity].
  cbv [bind ret]. rewrite <- (Hprobe fc eq_refl). reflexivity.
Qed.

Lemma sys_type_of_same (w1 w2 : World) (s1 s2 : Spec) :
  same_inputs w1 w2 s1 s2 -> sys_type_of w2 s2 = sys_type_of w1 s1.
Proof. intros H. unfold sys_type_of. to_first_run H. reflexivity. Qed.

(** C9.  Two runs on the same input, each with its lookups, differ at
    most in where cmake was found.  The host-config runs return the same
    path, create a file of the same name and log the same line; their
    writes are the same before and after the seventh one, which is the
    comment line with the cmake path of each run, and so are the bytes of
    the two files around that line.  The Makefile-include runs end in the
    same state with the same path: the two files are identical. *)
Theorem emitters_deterministic (w1 w2 : World) (s1 s2 : Spec) :
  same_inputs w1 w2 s1 s2 ->
  host_config_ok w1 s1 = true ->
  host_config_ok w2 s2 = true ->
  makefile_ok w1 s1 = true ->
  (exists st1 st2 path,
     create_host_config w1 s1 init = (st1, Returned path)
     /\ create_host_config w2 s2 init = (st2, Returned path)
     /\ file_name st1 = file_name st2
     /\ log_lines st1 = log_lines st2
     /\ exists pre post exe1 exe2,
          resolved_cmake w1 s1 = Some exe1
          /\ resolved_cmake w2 s2 = Some exe2
          /\ length pre = 6
          /\ chunks_of st1 = (pre ++ cmake_exe_line exe1 :: post)%list
          /\ chunks_of st2 = (pre ++ cmake_exe_line exe2 :: post)%list
          /\ content st1 = bytes pre +:+ render (cmake_exe_line exe1) +:+ bytes post
          /\ content st2 = bytes pre +:+ render (cmake_exe_line exe2) +:+ bytes post)
  /\ (exists st path,
        makefile_inc w1 s1 init = (st, Returned path)
        /\ makefile_inc w2 s2 init = (st, Returned path)).
Proof.
  intros H Hok1 Hok2 Hmake. split.
  - clear Hmake. pose proof (same_cmake_version _ _ _ _ H) as Hver.
    revert Hok1 Hok2 Hver. exec_unfold.
    rewrite (sys_type_of_same _ _ _ _ H). to_first_run H.
    exec_run.
    all: try (intros; discriminate).
    all: intros Hver; simpl in Hver; try (injection Hver as Hver).
    all: try (rewrite Hver in *; congruence).
    all: eexists _, _, _; do 4 (split; [reflexivity|]).
    all: cbn [chunks_of cfg_file].
    all: match goal with
         | |- exists pre post exe1 exe2, _ /\ _ /\ _ /\ ?cs = _ /\ _ =>
             exists (firstn 6 cs), (skipn 7 cs)
         end.
    all: eexists _, _; do 5 (split; [reflexivity|]).
    all: split; apply content_around; reflexivity.
  - apply makefile_inc_returns_iff in Hmake as [st [path Hrun]].
    exists st, path. split; [exact Hrun|].
    rewrite (makefile_inc_same _ _ _ _ H). exact Hrun.
Qed.

(** The theorem of C9 on the sample machine, with cmake found at two
    different places. *)
Lemma emitters_deterministic_witness :
  same_inputs Sample.quartz Sample.quartz_local_cmake Sample.spec_mpi Sample.spec_mpi
  /\ host_config_ok Sample.quartz Sample.spec_mpi = true
  /\ host_config_ok Sample.quartz_local_cmake Sample.spec_mpi = true
  /\ makefile_ok Sample.quartz Sample.spec_mpi = true
  /\ (exists st1 st2 path,
        create_host_config Sample.quartz Sample.spec_mpi init = (st1, Returned path)
        /\ create_host_config Sample.quartz_local_cmake Sample.spec_mpi init
           = (st2, Returned path)
        /\ file_name st1 = file_name st2
        /\ log_lines st1 = log_lines st2)
  /\ (exists st path,
        makefile_inc Sample.quartz Sample.spec_mpi init = (st, Returned path)
        /\ makefile_inc Sample.quartz_local_cmake Sample.spec_mpi init
           = (st, Returned path)).
Proof.
  assert (Hsame : same_inputs Sample.quartz Sample.quartz_local_cmake
                    Sample.spec_mpi Sample.spec_mpi).
  { constructor; try reflexivity.
    intros fc Hfc. vm_compute in Hfc. discriminate Hfc. }
  split; [exact Hsame|].
  split; [vm_compute; reflexivity|]. split; [vm_compute; reflexivity|].
  split; [vm_compute; reflexivity|].
  destruct (emitters_deterministic _ _ _ _ Hsame)
    as [[st1 [st2 [path [H1 [H2 [Hname [Hlog _]]]]]]] Hmake];
    try (vm_compute; reflexivity).
  split; [|exact Hmake].
  exists st1, st2, path. repeat split; assumption.
Defined.

(** The two host-config files of that pair of runs do differ, in the
    comment line only. *)
Example cmake_path_line_differs :
  exists st1 st2 path,
    create_host_config Sample.quartz Sample.spec_mpi init = (st1, Returned path)
    /\ create_host_config Sample.quartz_local_cmake Sample.spec_mpi init
       = (st2, Returned path)
    /\ content st1 <> content st2
    /\ delete 6 (chunks_of st1) = delete 6 (chunks_of st2).
Proof.
  eexists _, _, _. split; [vm_compute; reflexivity|].
  split; [vm_compute; reflexivity|].
  split; [vm_compute; discriminate | vm_compute; reflexivity].
Qed.

(** * Further properties *)

(** ** The Makefile include, line by line *)

(** X1.  The value of EXTRA_LINK_FLAGS: a run of [makefile_inc] with the
    compilers in the environment and the six nodes in the DAG returns, and
    the fragments written between the variable and the newline are the
    library directory of lapack, blas, umpire, raja and proj, in this
    order, each as a space, [-L], a space, the prefix and [/lib/]. *)
Theorem extra_link_flags_order (w : World) (spec : Spec)
    (lapack blas umpire raja proj mpi : Dep) :
  compiler_ok w = true ->
  nodes spec !! "netlib-lapack" = Some lapack ->
  nodes spec !! "blas" = Some blas ->
  nodes spec !! "umpire" = Some umpire ->
  nodes spec !! "raja" = Some raja ->
  nodes spec !! "proj" = Some proj ->
  nodes spec !! "mpi" = Some mpi ->
  exists st path,
    makefile_inc w spec init = (st, Returned path)
    /\ extra_link_flags st
       = [Text (" -L " +:+ dep_prefix lapack +:+ "/lib/");
          Text (" -L " +:+ dep_prefix blas +:+ "/lib/");
          Text (" -L " +:+ dep_prefix umpire +:+ "/lib/");
          Text (" -L " +:+ dep_prefix raja +:+ "/lib/");
          Text (" -L " +:+ dep_prefix proj +:+ "/lib/")].
Proof.
  intros Hok Hlapack Hblas Humpire Hraja Hproj Hmpi. revert Hok.
  exec_unfold. rewrite Hlapack, Hblas, Humpire, Hraja, Hproj, Hmpi.
  exec_run.
  all: eexists _, _; split; reflexivity.
Qed.

Lemma extra_link_flags_order_witness :
  compiler_ok Sample.quartz = true
  /\ exists st path,
       makefile_inc Sample.quartz Sample.spec_mpi init = (st, Returned path)
       /\ extra_link_flags st
          = [Text " -L /opt/lapack/lib/"; Text " -L /opt/blas/lib/";
             Text " -L /opt/umpire/lib/"; Text " -L /opt/raja/lib/";
             Text " -L /opt/proj/lib/"].
Proof.
  split; [vm_compute; reflexivity|].
  destruct (extra_link_flags_order Sample.quartz Sample.spec_mpi
              (Sample.lib "/opt/lapack") (Sample.lib "/opt/blas")
              (Sample.lib "/opt/umpire") (Sample.lib "/opt/raja")
              (Sample.lib "/opt/proj") Sample.mvapich)
    as [st [path [Hrun Hflags]]]; try (vm_compute; reflexivity).
  exists st, path. split; [exact Hrun | exact Hflags].
Defined.

(** X2.  The compiler variables of the Makefile include: CC is assigned
    twice, first with the C compiler of SPACK_CC and then with the MPI C++
    wrapper; CXX is assigned once, with the MPI C++ wrapper (the compiler
    of SPACK_CXX is read but not written); LINKER is assigned once, with
    nvcc, whatever the variants of the spec. *)
Theorem makefile_assignments (w : World) (spec : Spec) (cc : string) (mpi : Dep) :
  makefile_ok w spec = true ->
  env w !! "SPACK_CC" = Some cc ->
  nodes spec !! "mpi" = Some mpi ->
  exists st path,
    makefile_inc w spec init = (st, Returned path)
    /\ assignments_of "CC" (chunks_of st)
       = [Text ("CC = " +:+ cc +:+ " " +:+ nl);
          Text ("CC = " +:+ mpicxx mpi +:+ " " +:+ nl)]
    /\ assignments_of "CXX" (chunks_of st)
       = [Text ("CXX = " +:+ mpicxx mpi +:+ " " +:+ nl)]
    /\ assignments_of "LINKER" (chunks_of st)
       = [Text ("LINKER = nvcc " +:+ nl)].
Proof.
  intros Hok Hcc Hmpi. revert Hok. exec_unfold. rewrite Hcc, Hmpi. exec_run.
  all: eexists _, _; split; [reflexivity|].
  all: repeat split; vm_compute; reflexivity.
Qed.

Lemma makefile_assignments_witness :
  makefile_ok Sample.quartz Sample.spec_serial = true
  /\ env Sample.quartz !! "SPACK_CC" = Some "/usr/bin/gcc"
  /\ nodes Sample.spec_serial !! "mpi" = Some Sample.mvapich
  /\ exists st path,
       makefile_inc Sample.quartz Sample.spec_serial init = (st, Returned path)
       /\ assignments_of "CC" (chunks_of st)
          = [Text ("CC = /usr/bin/gcc " +:+ nl);
             Text ("CC = /opt/mpi/bin/mpicxx " +:+ nl)]
       /\ assignments_of "CXX" (chunks_of st)
          = [Text ("CXX = /opt/mpi/bin/mpicxx " +:+ nl)]
       /\ assignments_of "LINKER" (chunks_of st)
          = [Text ("LINKER = nvcc " +:+ nl)].
Proof.
  split; [vm_compute; reflexivity|]. split; [vm_compute; reflexivity|].
  split; [vm_compute; reflexivity|].
  apply (makefile_assignments Sample.quartz Sample.spec_serial "/usr/bin/gcc"
           Sample.mvapich); vm_compute; reflexivity.
Defined.

(** X3.  When the compiler has a Fortran component and the search for
    the program named by SPACK_FC finds it, the FC line of the Makefile
    include carries the path that was found, not the value of SPACK_FC. *)
Theorem fc_line_with_fortran (w : World) (spec : Spec) (fc path : string) :
  makefile_ok w spec = true ->
  truthy (compiler_fc w) = true ->
  env w !! "SPACK_FC" = Some fc ->
  which w fc = Some path ->
  exists st p,
    makefile_inc w spec init = (st, Returned p)
    /\ assignments_of "FC" (chunks_of st) = [Text ("FC = " +:+ path +:+ " " +:+ nl)].
Proof.
  intros Hok Hfc Henv Hwhich. revert Hok. exec_unfold. rewrite Hfc, Henv. exec_run.
  all: rewrite Hwhich; eexists _, _; split; [reflexivity|].
  all: vm_compute; reflexivity.
Qed.

Lemma fc_line_with_fortran_witness :
  makefile_ok quartz_fortran Sample.spec_mpi = true
  /\ truthy (compiler_fc quartz_fortran) = true
  /\ env quartz_fortran !! "SPACK_FC" = Some "gfortran"
  /\ which quartz_fortran "gfortran" = Some "/usr/bin/gfortran"
  /\ exists st p,
       makefile_inc quartz_fortran Sample.spec_mpi init = (st, Returned p)
       /\ assignments_of "FC" (chunks_of st)
          = [Text ("FC = /usr/bin/gfortran " +:+ nl)].
Proof.
  split; [vm_compute; reflexivity|]. split; [vm_compute; reflexivity|].
  split; [vm_compute; reflexivity|]. split; [vm_compute; reflexivity|].
  apply (fc_line_with_fortran quartz_fortran Sample.spec_mpi "gfortran"
           "/usr/bin/gfortran"); vm_compute; reflexivity.
Defined.

(** ** The host-config, entry by entry *)

Lemma cache_vtype_on_off (b : bool) : cache_vtype (on_off b) None = "BOOL".
Proof. destruct b; reflexivity. Qed.

(** X4.  The five switches of the host-config: on every run that
    returns, BUILD_SHARED_LIBS, ENABLE_TESTS, ENABLE_MPI, ENABLE_CUDA and
    ENABLE_OPENMP are each written exactly once, with the value ON when
    the variant (+shared, +test, +mpi, +cuda, +openmp) is in the spec and
    OFF when it is not; such a value is always typed BOOL. *)
Theorem feature_flag_entries (w : World) (spec : Spec) :
  host_config_ok w spec = true ->
  exists st path,
    create_host_config w spec init = (st, Returned path)
    /\ entries_named "BUILD_SHARED_LIBS" (chunks_of st)
       = [("BUILD_SHARED_LIBS", on_off (contains spec "+shared"))]
    /\ entries_named "ENABLE_TESTS" (chunks_of st)
       = [("ENABLE_TESTS", on_off (contains spec "+test"))]
    /\ entries_named "ENABLE_MPI" (chunks_of st)
       = [("ENABLE_MPI", on_off (contains spec "+mpi"))]
    /\ entries_named "ENABLE_CUDA" (chunks_of st)
       = [("ENABLE_CUDA", on_off (contains spec "+cuda"))]
    /\ entries_named "ENABLE_OPENMP" (chunks_of st)
       = [("ENABLE_OPENMP", on_off (contains spec "+openmp"))]
    /\ forall b, cache_vtype (on_off b) None = "BOOL".
Proof.
  exec.
  all: eexists _, _; split; [reflexivity|].
  all: repeat split; try apply cache_vtype_on_off.
  all: try match goal with H : contains _ "+mpi" = _ |- _ => rewrite H end.
  all: reflexivity.
Qed.

Lemma feature_flag_entries_witness :
  host_config_ok Sample.quartz Sample.spec_serial = true
  /\ exists st path,
       create_host_config Sample.quartz Sample.spec_serial init = (st, Returned path)
       /\ entries_named "BUILD_SHARED_LIBS" (chunks_of st) = [("BUILD_SHARED_LIBS", "ON")]
       /\ entries_named "ENABLE_TESTS" (chunks_of st) = [("ENABLE_TESTS", "OFF")]
       /\ entries_named "ENABLE_MPI" (chunks_of st) = [("ENABLE_MPI", "OFF")]
       /\ entries_named "ENABLE_CUDA" (chunks_of st) = [("ENABLE_CUDA", "ON")]
       /\ entries_named "ENABLE_OPENMP" (chunks_of st) = [("ENABLE_OPENMP", "OFF")].
Proof.
  split; [vm_compute; reflexivity|].
  destruct (feature_flag_entries Sample.quartz Sample.spec_serial)
    as [st [path [Hrun [H1 [H2 [H3 [H4 [H5 _]]]]]]]]; [vm_compute; reflexivity|].
  exists st, path. repeat split; assumption.
Defined.

(** X5.  The MPI block with the variant on: the MPI-related entries of
    a run that returns are ENABLE_MPI ON, then MPI_C_COMPILER,
    MPI_CXX_COMPILER and MPI_Fortran_COMPILER with the three wrappers of
    the MPI node, then the launcher entry if there is one; there is never
    more than one launcher entry. *)
Theorem mpi_on_entries (w : World) (spec : Spec) (mpi : Dep) :
  host_config_ok w spec = true ->
  contains spec "+mpi" = true ->
  nodes spec !! "mpi" = Some mpi ->
  exists st path,
    create_host_config w spec init = (st, Returned path)
    /\ mpi_entries (chunks_of st)
       = ([("ENABLE_MPI", "ON"); ("MPI_C_COMPILER", mpicc mpi);
           ("MPI_CXX_COMPILER", mpicxx mpi);
           ("MPI_Fortran_COMPILER", mpifc mpi)]
          ++ mpiexec_entries (chunks_of st))%list
    /\ (length (mpiexec_entries (chunks_of st)) <= 1)%nat.
Proof.
  intros Hok Hmpi Hnode. revert Hok. exec_unfold. rewrite Hmpi, Hnode. exec_run.
  all: eexists _, _; split; [reflexivity|].
  all: split; [reflexivity | cbn; lia].
Qed.

Lemma mpi_on_entries_witness :
  host_config_ok Sample.quartz Sample.spec_mpi = true
  /\ contains Sample.spec_mpi "+mpi" = true
  /\ nodes Sample.spec_mpi !! "mpi" = Some Sample.mvapich
  /\ exists st path,
       create_host_config Sample.quartz Sample.spec_mpi init = (st, Returned path)
       /\ mpi_entries (chunks_of st)
          = ([("ENABLE_MPI", "ON"); ("MPI_C_COMPILER", mpicc Sample.mvapich);
              ("MPI_CXX_COMPILER", mpicxx Sample.mvapich);
              ("MPI_Fortran_COMPILER", mpifc Sample.mvapich)]
             ++ mpiexec_entries (chunks_of st))%list
       /\ (length (mpiexec_entries (chunks_of st)) <= 1)%nat.
Proof.
  split; [vm_compute; reflexivity|]. split; [reflexivity|].
  split; [vm_compute; reflexivity|].
  apply mpi_on_entries; vm_compute; reflexivity.
Defined.

(** X6.  The path entries: on every run that returns, CMAKE_C_COMPILER
    and CMAKE_CXX_COMPILER are written once each with the values of
    SPACK_CC and SPACK_CXX, and LAPACK_DIR and BLAS_DIR once each with the
    prefixes of the netlib-lapack and blas nodes. *)
Theorem path_entries (w : World) (spec : Spec) (cc cxx : string) (lapack blas : Dep) :
  host_config_ok w spec = true ->
  env w !! "SPACK_CC" = Some cc ->
  env w !! "SPACK_CXX" = Some cxx ->
  nodes spec !! "netlib-lapack" = Some lapack ->
  nodes spec !! "blas" = Some blas ->
  exists st path,
    create_host_config w spec init = (st, Returned path)
    /\ entries_named "CMAKE_C_COMPILER" (chunks_of st) = [("CMAKE_C_COMPILER", cc)]
    /\ entries_named "CMAKE_CXX_COMPILER" (chunks_of st) = [("CMAKE_CXX_COMPILER", cxx)]
    /\ entries_named "LAPACK_DIR" (chunks_of st) = [("LAPACK_DIR", dep_prefix lapack)]
    /\ entries_named "BLAS_DIR" (chunks_of st) = [("BLAS_DIR", dep_prefix blas)].
Proof.
  intros Hok Hcc Hcxx Hlapack Hblas. revert Hok. exec_unfold.
  rewrite Hcc, Hcxx, Hlapack, Hblas. exec_run.
  all: eexists _, _; split; [reflexivity|].
  all: repeat split; reflexivity.
Qed.

Lemma path_entries_witness :
  host_config_ok Sample.quartz Sample.spec_mpi = true
  /\ env Sample.quartz !! "SPACK_CC" = Some "/usr/bin/gcc"
  /\ env Sample.quartz !! "SPACK_CXX" = Some "/usr/bin/g++"
  /\ nodes Sample.spec_mpi !! "netlib-lapack" = Some (Sample.lib "/opt/lapack")
  /\ nodes Sample.spec_mpi !! "blas" = Some (Sample.lib "/opt/blas")
  /\ exists st path,
       create_host_config Sample.quartz Sample.spec_mpi init = (st, Returned path)
       /\ entries_named "CMAKE_C_COMPILER" (chunks_of st)
          = [("CMAKE_C_COMPILER", "/usr/bin/gcc")]
       /\ entries_named "CMAKE_CXX_COMPILER" (chunks_of st)
          = [("CMAKE_CXX_COMPILER", "/usr/bin/g++")]
       /\ entries_named "LAPACK_DIR" (chunks_of st) = [("LAPACK_DIR", "/opt/lapack")]
       /\ entries_named "BLAS_DIR" (chunks_of st) = [("BLAS_DIR", "/opt/blas")].
Proof.
  split; [vm_compute; reflexivity|]. split; [vm_compute; reflexivity|].
  split; [vm_compute; reflexivity|]. split; [vm_compute; reflexivity|].
  split; [vm_compute; reflexivity|].
  apply (path_entries Sample.quartz Sample.spec_mpi "/usr/bin/gcc" "/usr/bin/g++"
           (Sample.lib "/opt/lapack") (Sample.lib "/opt/blas"));
    vm_compute; reflexivity.
Defined.

(** ** The log *)

Lemma log_when_returned (w : World) (spec : Spec) (st : Sys) (path : string) :
  (create_host_config w spec init = (st, Returned path) ->
   log_lines st = ["spack generated conduit host-config file: " +:+ path])
  /\ (makefile_inc w spec init = (st, Returned path) ->
      log_lines st = ["spack generated conduit make.inc file: " +:+ path]).
Proof.
  split; exec.
  all: intros H; try discriminate H; injection H as <- <-; reflexivity.
Qed.

Lemma log_when_raised (w : World) (spec : Spec) (st : Sys) (e : exn) :
  (create_host_config w spec init = (st, Raised e) -> log_lines st = [])
  /\ (makefile_inc w spec init = (st, Raised e) -> log_lines st = []).
Proof.
  split; exec.
  all: intros H; try discriminate H; injection H as <- <-; reflexivity.
Qed.

(** X7.  What a generator logs: a run that returns logs exactly one
    line, the fixed message followed by the very path it returns; a run
    that raises logs nothing. *)
Theorem log_line_of_run (w : World) (spec : Spec) :
  log_lines (fst (create_host_config w spec init))
  = match snd (create_host_config w spec init) with
    | Returned path => ["spack generated conduit host-config file: " +:+ path]
    | Raised _ => []
    end
  /\ log_lines (fst (makefile_inc w spec init))
     = match snd (makefile_inc w spec init) with
       | Returned path => ["spack generated conduit make.inc file: " +:+ path]
       | Raised _ => []
       end.
Proof.
  split.
  - destruct (create_host_config w spec init) as [st [path|e]] eqn:Hrun; cbn [fst snd].
    + apply (proj1 (log_when_returned w spec st path)), Hrun.
    + apply (proj1 (log_when_raised w spec st e)), Hrun.
  - destruct (makefile_inc w spec init) as [st [path|e]] eqn:Hrun; cbn [fst snd].
    + apply (proj2 (log_when_returned w spec st path)), Hrun.
    + apply (proj2 (log_when_raised w spec st e)), Hrun.
Qed.

(** ** How the generators fail before the file is created *)

(** X8.  Both generators begin by reading SPACK_CC, SPACK_CXX and, only
    when the compiler has a Fortran component, SPACK_FC, in this order.
    The first of them that the environment lacks makes both raise its
    [KeyError], before any file is created and with nothing logged;
    [create_host_config] does so for SPACK_FC too, although it never uses
    the Fortran compiler. *)
Theorem missing_compiler_variable (w : World) (spec : Spec) (k : string) :
  List.find (fun v => negb (has_key (env w) v)) (compiler_variables w) = Some k ->
  makefile_inc w spec init = (init, Raised (KeyError k))
  /\ create_host_config w spec init = (init, Raised (KeyError k)).
Proof.
  unfold compiler_variables. exec_unfold. cbn [List.find app].
  exec_run.
  all: cbn [List.find negb app]; intros H.
  all: repeat match goal with
              | E : env _ !! _ = _ |- _ => rewrite E in H; clear E
              end.
  all: try discriminate H; injection H as <-.
  all: split; reflexivity.
Qed.

Lemma missing_compiler_variable_witness :
  List.find (fun v => negb (has_key (env quartz_no_cxx) v))
    (compiler_variables quartz_no_cxx) = Some "SPACK_CXX"
  /\ makefile_inc quartz_no_cxx Sample.spec_mpi init
     = (init, Raised (KeyError "SPACK_CXX"))
  /\ create_host_config quartz_no_cxx Sample.spec_mpi init
     = (init, Raised (KeyError "SPACK_CXX")).
Proof.
  split; [vm_compute; reflexivity|].
  apply missing_compiler_variable. vm_compute. reflexivity.
Defined.

(** X9.  Given the compilers in the environment, [create_host_config]
    raises the [KeyError] of cmake before the file is created exactly when
    the cmake variant is on and the DAG has no cmake node.  The search
    path is not consulted then: a cmake that [which] would find does not
    help. *)
Theorem cmake_variant_needs_node (w : World) (spec : Spec) :
  compiler_ok w = true ->
  create_host_config w spec init = (init, Raised (KeyError "cmake"))
  <-> contains spec "+cmake" = true /\ nodes spec !! "cmake" = None.
Proof.
  intros Hok. revert Hok. exec.
  all: split; [intros H | intros [H1 H2]].
  all: try discriminate.
  all: try (split; reflexivity).
  all: try reflexivity.
  all: try (exfalso; injection H as H; apply (f_equal cfg_file) in H;
            discriminate H).
Qed.

Lemma cmake_variant_needs_node_witness :
  compiler_ok Sample.quartz = true
  /\ which Sample.quartz "cmake" = Some "/usr/bin/cmake"
  /\ create_host_config Sample.quartz spec_cmake_variant_no_node init
     = (init, Raised (KeyError "cmake")).
Proof.
  split; [vm_compute; reflexivity|]. split; [reflexivity|].
  apply cmake_variant_needs_node; [|split]; vm_compute; reflexivity.
Defined.

(** ** Running a generator again *)

Ltac exec_step_framed :=
  cbv [bind ret raise write write_chunk write_entry open_w tty_info init
       cfg_file tty env_get spec_get];
  lazymatch goal with
  | |- context [match ?x with _ => _ end] =>
      let y := head_test x in destruct y eqn:?
  end.

(** A run started with a file already there and lines already logged:
    what it leaves is what the run from the start leaves, after the old
    log; the old file stays only if the run creates none. *)
Lemma create_host_config_frame (w : World) (spec : Spec)
    (old : option (string * list chunk)) (logged : list string) :
  create_host_config w spec {| cfg_file := old; tty := logged |}
  = (let (st, r) := create_host_config w spec init in
     ({| cfg_file := match cfg_file st with
                     | Some f => Some f
                     | None => old
                     end;
         tty := logged ++ tty st |}, r)).
Proof.
  exec_unfold. repeat exec_step_framed.
  all: rewrite ?app_nil_r; reflexivity.
Qed.

Lemma makefile_inc_frame (w : World) (spec : Spec)
    (old : option (string * list chunk)) (logged : list string) :
  makefile_inc w spec {| cfg_file := old; tty := logged |}
  = (let (st, r) := makefile_inc w spec init in
     ({| cfg_file := match cfg_file st with
                     | Some f => Some f
                     | None => old
                     end;
         tty := logged ++ tty st |}, r)).
Proof.
  exec_unfold. repeat exec_step_framed.
  all: rewrite ?app_nil_r; reflexivity.
Qed.

(** X10.  Running a generator a second time, on the state the first run
    left: the result is the same, and the file has the same name and
    exactly the writes of the first run, because the file is opened anew
    and not appended to; only the log grows, by the same lines again. *)
Theorem rerun_overwrites (w : World) (spec : Spec) :
  (let first_run := create_host_config w spec init in
   let second_run := create_host_config w spec (fst first_run) in
   snd second_run = snd first_run
   /\ file_name (fst second_run) = file_name (fst first_run)
   /\ chunks_of (fst second_run) = chunks_of (fst first_run)
   /\ log_lines (fst second_run)
      = (log_lines (fst first_run) ++ log_lines (fst first_run))%list)
  /\ (let first_run := makefile_inc w spec init in
      let second_run := makefile_inc w spec (fst first_run) in
      snd second_run = snd first_run
      /\ file_name (fst second_run) = file_name (fst first_run)
      /\ chunks_of (fst second_run) = chunks_of (fst first_run)
      /\ log_lines (fst second_run)
         = (log_lines (fst first_run) ++ log_lines (fst first_run))%list).
Proof.
  split; cbv zeta.
  - destruct (create_host_config w spec init) as [[file logged] r] eqn:Hrun.
    cbn [fst snd]. rewrite create_host_config_frame, Hrun.
    unfold file_name, chunks_of, log_lines. cbn [fst snd cfg_file tty].
    destruct file as [[f cs]|]; repeat split; reflexivity.
  - destruct (makefile_inc w spec init) as [[file logged] r] eqn:Hrun.
    cbn [fst snd]. rewrite makefile_inc_frame, Hrun.
    unfold file_name, chunks_of, log_lines. cbn [fst snd cfg_file tty].
    destruct file as [[f cs]|]; repeat split; reflexivity.
Qed.

(** ** The two file names *)

Lemma string_length_app (a b : string) :
  String.length (a +:+ b) = String.length a + String.length b.
Proof.
  induction a as [|ch a IH]; [reflexivity|].
  change (S (String.length (a +:+ b)) = S (String.length a + String.length b)).
  rewrite IH. reflexivity.
Qed.

Lemma suffixes_differ (a b : string) :
  a +:+ "-ascent.cmake" <> b +:+ "-ascent.inc".
Proof.
  revert b. induction a as [|ch a IH]; intros b H.
  - pose proof (f_equal String.length H) as Hlen.
    rewrite !string_length_app in Hlen.
    destruct b as [|c1 [|c2 [|c3 b]]]; cbn in Hlen; try lia.
    vm_compute in H. congruence.
  - destruct b as [|c b].
    + apply (f_equal String.length) in H.
      change (S (String.length (a +:+ "-ascent.cmake")) = 11) in H.
      rewrite string_length_app in H. cbn in H. lia.
    + injection H as _ H. exact (IH b H).
Qed.

Lemma names_differ (w1 w2 : World) (s1 s2 : Spec) :
  host_cfg_fname w1 s1 <> make_inc_fname w2 s2.
Proof.
  unfold host_cfg_fname, make_inc_fname. intros H.
  apply (suffixes_differ
           (hostname w1 +:+ "-" +:+ sys_type_of w1 s1 +:+ "-" +:+ compiler s1)
           ("make-" +:+ hostname w2 +:+ "-" +:+ sys_type_of w2 s2 +:+ "-"
              +:+ compiler s2)).
  rewrite !string_app_assoc. exact H.
Qed.

(** X11.  The name of a host-config file is never the name of a
    Makefile include, whatever the host names, platforms and compilers of
    the two: one generator cannot overwrite the file of the other. *)
Theorem file_names_never_collide (w1 w2 : World) (s1 s2 : Spec) :
  host_cfg_fname w1 s1 <> make_inc_fname w2 s2
  /\ hostname w1 +:+ "-" +:+ sys_type_of w1 s1 +:+ "-" +:+ compiler s1
       +:+ "-ascent.cmake"
     <> "make-" +:+ hostname w2 +:+ "-" +:+ sys_type_of w2 s2 +:+ "-"
          +:+ compiler s2 +:+ "-ascent.inc".
Proof.
  assert (Hdiff : hostname w1 +:+ "-" +:+ sys_type_of w1 s1 +:+ "-" +:+ compiler s1
                    +:+ "-ascent.cmake"
                  <> "make-" +:+ hostname w2 +:+ "-" +:+ sys_type_of w2 s2 +:+ "-"
                       +:+ compiler s2 +:+ "-ascent.inc").
  { intros H.
    apply (suffixes_differ
             (hostname w1 +:+ "-" +:+ sys_type_of w1 s1 +:+ "-" +:+ compiler s1)
             ("make-" +:+ hostname w2 +:+ "-" +:+ sys_type_of w2 s2 +:+ "-"
                +:+ compiler s2)).
    rewrite !string_app_assoc. exact H. }
  split; [unfold host_cfg_fname, make_inc_fname|]; exact Hdiff.
Qed.

(** ** Reading an entry line back *)

(** A string that lacks [c] ends where the first [c] stands. *)
Lemma split_at_first (c : ascii) (a b x y : string) :
  lacks c a -> lacks c b ->
  a +:+ String c x = b +:+ String c y ->
  a = b /\ x = y.
Proof.
  unfold lacks. revert b. induction a as [|ch a IH]; intros [|ch' b] Ha Hb H.
  - injection H as H. split; [reflexivity | exact H].
  - injection H as Hc _. exfalso. apply Hb. left. symmetry. exact Hc.
  - injection H as Hc _. exfalso. apply Ha. left. exact Hc.
  - injection H as Hc H.
    destruct (IH b) as [-> ->]; [| | exact H |].
    + intros Hin. apply Ha. right. exact Hin.
    + intros Hin. apply Hb. right. exact Hin.
    + subst. split; reflexivity.
Qed.

(** X12.  An entry line can be read back: for names without a space and
    values without a double quote, two entries written without an explicit
    type that give the same line have the same name and the same value. *)
Theorem cmake_cache_entry_injective (n1 v1 n2 v2 : string) :
  lacks " "%char n1 -> lacks " "%char n2 ->
  lacks "034"%char v1 -> lacks "034"%char v2 ->
  cmake_cache_entry n1 v1 None = cmake_cache_entry n2 v2 None ->
  n1 = n2 /\ v1 = v2.
Proof.
  intros Hn1 Hn2 Hv1 Hv2 H. unfold cmake_cache_entry in H.
  apply String.app_inj in H.
  apply (split_at_first " "%char) in H as [-> H]; [|assumption..].
  injection H as H.
  apply (split_at_first "034"%char) in H as [-> _]; [|assumption..].
  split; reflexivity.
Qed.

Lemma cmake_cache_entry_injective_witness :
  lacks " "%char "BLAS_DIR" /\ lacks "034"%char "/opt/blas"
  /\ cmake_cache_entry "BLAS_DIR" "/opt/blas" None
     = cmake_cache_entry "BLAS_DIR" "/opt/blas" None
  /\ "BLAS_DIR" = "BLAS_DIR" /\ "/opt/blas" = "/opt/blas".
Proof.
  assert (Hn : lacks " "%char "BLAS_DIR").
  { unfold lacks. cbn. intros H.
    repeat destruct H as [H|H]; try discriminate H. exact H. }
  assert (Hv : lacks "034"%char "/opt/blas").
  { unfold lacks. cbn. intros H.
    repeat destruct H as [H|H]; try discriminate H. exact H. }
  split; [exact Hn|]. split; [exact Hv|]. split; [reflexivity|].
  exact (cmake_cache_entry_injective "BLAS_DIR" "/opt/blas" "BLAS_DIR" "/opt/blas"
           Hn Hn Hv Hv eq_refl).
Defined.

(** Without the restriction two different entries can give the same
    line: neither the name nor the value is escaped. *)
Example cmake_cache_entry_not_escaped :
  cmake_cache_entry ("A " +:+ dq +:+ "B") "C" None
  = cmake_cache_entry "A" ("B " +:+ dq +:+ "C") None.
Proof. reflexivity. Qed.

(** ** The install method *)

Lemma create_host_config_returns (w : World) (spec : Spec) :
  host_config_ok w spec = true ->
  exists cs,
    create_host_config w spec init
    = ({| cfg_file := Some (host_cfg_fname w spec, cs);
          tty := ["spack generated conduit host-config file: "
                    +:+ abspath w (host_cfg_fname w spec)] |},
       Returned (abspath w (host_cfg_fname w spec))).
Proof. unfold host_cfg_fname. exec. all: eexists; reflexivity. Qed.

Lemma makefile_inc_returns (w : World) (spec : Spec) :
  makefile_ok w spec = true ->
  exists cs,
    makefile_inc w spec init
    = ({| cfg_file := Some (make_inc_fname w spec, cs);
          tty := ["spack generated conduit make.inc file: "
                    +:+ abspath w (make_inc_fname w spec)] |},
       Returned (abspath w (make_inc_fname w spec))).
Proof. unfold make_inc_fname. exec. all: eexists; reflexivity. Qed.

(** X13.  A full install: when both generators have their lookups and
    the environment has SPACK_DEBUG_LOG_DIR, [install] returns having
    entered [spack-build], created the prefix, and copied, in this order,
    the Makefile include and the host-config to the prefix, then the
    host-config and the Makefile include to the log directory, under the
    absolute paths the generators returned.  Both files are on disk with
    the writes of their generator, and the log has the two lines. *)
Theorem install_returns (w : World) (spec : Spec) (prefix log_dir : string) :
  host_config_ok w spec = true ->
  makefile_ok w spec = true ->
  env w !! "SPACK_DEBUG_LOG_DIR" = Some log_dir ->
  exists b,
    install w spec prefix = (b, Returned tt)
    /\ actions b
       = [WorkingDir "spack-build"; Mkdirp prefix;
          Install (abspath w (make_inc_fname w spec)) prefix;
          Install (abspath w (host_cfg_fname w spec)) prefix;
          Install (abspath w (host_cfg_fname w spec)) log_dir;
          Install (abspath w (make_inc_fname w spec)) log_dir]
    /\ disk b !! host_cfg_fname w spec
       = Some (chunks_of (fst (create_host_config w spec init)))
    /\ disk b !! make_inc_fname w spec
       = Some (chunks_of (fst (makefile_inc w spec init)))
    /\ build_log b
       = ["spack generated conduit host-config file: "
            +:+ abspath w (host_cfg_fname w spec);
          "spack generated conduit make.inc file: "
            +:+ abspath w (make_inc_fname w spec)].
Proof.
  intros Hhost Hmake Hlog.
  destruct (create_host_config_returns w spec Hhost) as [cs1 H1].
  destruct (makefile_inc_returns w spec Hmake) as [cs2 H2].
  unfold install. rewrite H1. cbn [tty].
  rewrite makefile_inc_frame, H2, Hlog. cbn [tty cfg_file close_file app].
  eexists. split; [reflexivity|]. cbn [actions disk build_log fst chunks_of cfg_file].
  split; [reflexivity|]. split; [|split; [|reflexivity]].
  - rewrite lookup_insert_ne; [apply lookup_insert_eq|].
    intros H. symmetry in H. exact (names_differ _ _ _ _ H).
  - apply lookup_insert_eq.
Qed.

Lemma install_returns_witness :
  host_config_ok quartz_logging Sample.spec_mpi = true
  /\ makefile_ok quartz_logging Sample.spec_mpi = true
  /\ env quartz_logging !! "SPACK_DEBUG_LOG_DIR" = Some "/tmp/spack-stage/logs"
  /\ exists b,
       install quartz_logging Sample.spec_mpi "/opt/sw4" = (b, Returned tt)
       /\ actions b
          = [WorkingDir "spack-build"; Mkdirp "/opt/sw4";
             Install "/tmp/spack-build/make-quartz-linux-rhel7-x86_64-gcc@7.3.0-ascent.inc"
               "/opt/sw4";
             Install "/tmp/spack-build/quartz-linux-rhel7-x86_64-gcc@7.3.0-ascent.cmake"
               "/opt/sw4";
             Install "/tmp/spack-build/quartz-linux-rhel7-x86_64-gcc@7.3.0-ascent.cmake"
               "/tmp/spack-stage/logs";
             Install "/tmp/spack-build/make-quartz-linux-rhel7-x86_64-gcc@7.3.0-ascent.inc"
               "/tmp/spack-stage/logs"].
Proof.
  split; [vm_compute; reflexivity|]. split; [vm_compute; reflexivity|].
  split; [vm_compute; reflexivity|].
  destruct (install_returns quartz_logging Sample.spec_mpi "/opt/sw4"
              "/tmp/spack-stage/logs")
    as [b [Hrun [Hact _]]]; try (vm_compute; reflexivity).
  exists b. split; [exact Hrun|]. rewrite Hact. vm_compute. reflexivity.
Defined.

(** X14.  When one of the generators lacks a lookup, [install] raises
    and has done nothing but enter [spack-build]: the prefix is not
    created and no file is copied.  If it is the host-config generator
    that fails, the Makefile include is never generated. *)
Theorem install_generator_failure (w : World) (spec : Spec) (prefix : string) :
  host_config_ok w spec && makefile_ok w spec = false ->
  exists b e,
    install w spec prefix = (b, Raised e)
    /\ actions b = [WorkingDir "spack-build"]
    /\ (host_config_ok w spec = false ->
        disk b !! make_inc_fname w spec = None).
Proof.
  intros Hnot. unfold install.
  destruct (create_host_config w spec init) as [st1 [p1|e1]] eqn:H1.
  - assert (Hhost : host_config_ok w spec = true).
    { apply create_host_config_returns_iff. eauto. }
    rewrite Hhost in Hnot. cbn in Hnot.
    rewrite makefile_inc_frame.
    destruct (makefile_inc w spec init) as [st2 [p2|e2]] eqn:H2.
    + assert (Hmake : makefile_ok w spec = true).
      { apply makefile_inc_returns_iff. eauto. }
      congruence.
    + eexists _, _. split; [reflexivity|]. split; [reflexivity|].
      intros Hf. congruence.
  - eexists _, _. split; [reflexivity|]. split; [reflexivity|].
    intros _. cbn [disk]. unfold close_file.
    pose proof (create_host_config_file_name w spec) as Hname.
    rewrite H1 in Hname. cbn [fst] in Hname. unfold file_name in Hname.
    destruct (cfg_file st1) as [[f cs]|]; [|apply lookup_empty].
    rewrite (Hname f eq_refl).
    rewrite lookup_insert_ne; [apply lookup_empty|].
    apply names_differ.
Qed.

Lemma install_generator_failure_witness :
  host_config_ok Sample.quartz_no_cmake Sample.spec_mpi
  && makefile_ok Sample.quartz_no_cmake Sample.spec_mpi = false
  /\ exists b,
       install Sample.quartz_no_cmake Sample.spec_mpi "/opt/sw4"
       = (b, Raised cmake_not_found)
       /\ actions b = [WorkingDir "spack-build"].
Proof.
  split; [vm_compute; reflexivity|].
  destruct (install_generator_failure Sample.quartz_no_cmake Sample.spec_mpi "/opt/sw4")
    as [b [e [Hrun [Hact _]]]]; [vm_compute; reflexivity|].
  exists b. split; [|exact Hact].
  rewrite Hrun. f_equal.
  assert (He : snd (install Sample.quartz_no_cmake Sample.spec_mpi "/opt/sw4")
               = Raised cmake_not_found) by (vm_compute; reflexivity).
  rewrite Hrun in He. exact He.
Defined.

(** X15.  Without SPACK_DEBUG_LOG_DIR in the environment, [install]
    raises the [KeyError] of line 100 only after both files have been
    copied to the prefix: the installation is left half done, with nothing
    in a log directory. *)
Theorem install_without_log_dir (w : World) (spec : Spec) (prefix : string) :
  host_config_ok w spec = true ->
  makefile_ok w spec = true ->
  env w !! "SPACK_DEBUG_LOG_DIR" = None ->
  exists b,
    install w spec prefix = (b, Raised (KeyError "SPACK_DEBUG_LOG_DIR"))
    /\ actions b
       = [WorkingDir "spack-build"; Mkdirp prefix;
          Install (abspath w (make_inc_fname w spec)) prefix;
          Install (abspath w (host_cfg_fname w spec)) prefix].
Proof.
  intros Hhost Hmake Hlog.
  destruct (create_host_config_returns w spec Hhost) as [cs1 H1].
  destruct (makefile_inc_returns w spec Hmake) as [cs2 H2].
  unfold install. rewrite H1. cbn [tty].
  rewrite makefile_inc_frame, H2, Hlog.
  eexists. split; reflexivity.
Qed.

Lemma install_without_log_dir_witness :
  host_config_ok Sample.quartz Sample.spec_mpi = true
  /\ makefile_ok Sample.quartz Sample.spec_mpi = true
  /\ env Sample.quartz !! "SPACK_DEBUG_LOG_DIR" = None
  /\ exists b,
       install Sample.quartz Sample.spec_mpi "/opt/sw4"
       = (b, Raised (KeyError "SPACK_DEBUG_LOG_DIR")).
Proof.
  split; [vm_compute; reflexivity|]. split; [vm_compute; reflexivity|].
  split; [vm_compute; reflexivity|].
  destruct (install_without_log_dir Sample.quartz Sample.spec_mpi "/opt/sw4")
    as [b [Hrun _]]; try (vm_compute; reflexivity).
  exists b. exact Hrun.
Defined.

(** ** The post-install check *)

Lemma runs_of_app (a b : list event) : runs_of (a ++ b) = (runs_of a ++ runs_of b)%list.
Proof.
  induction a as [|[| |exe args|] a IH]; cbn; rewrite ?IH; reflexivity.
Qed.

Lemma copies_of_app (a b : list event) :
  copies_of (a ++ b) = (copies_of a ++ copies_of b)%list.
Proof.
  induction a as [|[| | |src dest] a IH]; cbn; rewrite ?IH; reflexivity.
Qed.

Lemma runs_of_copies (files : list string) :
  runs_of (map (fun f => Copy f ".") files) = [].
Proof. induction files as [|f files IH]; [reflexivity | exact IH]. Qed.

Lemma copies_of_copies (files : list string) :
  copies_of (map (fun f => Copy f ".") files) = map (fun f => (f, ".")) files.
Proof.
  induction files as [|f files IH]; [reflexivity|]. cbn. rewrite IH. reflexivity.
Qed.

(** The commands of the first steps of a list are the first commands of
    the list, and likewise the copies. *)
Lemma runs_of_firstn (n : nat) (l : list event) :
  exists m, runs_of (firstn n l) = firstn m (runs_of l).
Proof.
  revert n. induction l as [|e l IH]; intros [|n].
  1-3: exists 0%nat; reflexivity.
  destruct (IH n) as [m Hm].
  destruct e; cbn; first [exists m; exact Hm | exists (S m); cbn; rewrite Hm; reflexivity].
Qed.

Lemma copies_of_firstn_nil (n : nat) (l : list event) :
  copies_of l = [] -> copies_of (firstn n l) = [].
Proof.
  revert n. induction l as [|e l IH]; intros [|n] H; try reflexivity.
  destruct e; cbn in *; try discriminate H; apply IH, H.
Qed.

(** Sequencing. *)
Lemma seq_ext (a b b' : step) :
  (forall evs, b evs = b' evs) -> forall evs, seq a b evs = seq a b' evs.
Proof.
  intros H evs. unfold seq. destruct (a evs) as [evs' []]; [apply H | reflexivity ..].
Qed.

Lemma seq_assoc (a b c : step) (evs : list event) :
  seq (seq a b) c evs = seq a (seq b c) evs.
Proof.
  unfold seq. destruct (a evs) as [evs' []]; reflexivity.
Qed.

Lemma seq_skip_r (a : step) (evs : list event) :
  seq a (fun evs' => (evs', Checked)) evs = a evs.
Proof.
  unfold seq. destruct (a evs) as [evs' []]; reflexivity.
Qed.

(** A step that fails does not give [Checked]. *)
Lemma perform_result (t : Tools) (e : event) (evs : list event) :
  perform t e evs
  = ((evs ++ [e])%list,
     if match e with Print _ => true | _ => ok t evs e end
     then Checked else failure e)
  /\ (match e with Print _ => true | _ => ok t evs e end = false ->
      failure e <> Checked).
Proof.
  destruct e; cbn; unfold emit, attempt; cbn;
    (split; [reflexivity | intros H; discriminate]).
Qed.

(** [execute] on two lists, one after the other. *)
Lemma execute_app (t : Tools) (a b : list event) (evs : list event) :
  execute t (a ++ b) evs = seq (execute t a) (execute t b) evs.
Proof.
  revert evs. induction a as [|e a IH]; intros evs; [reflexivity|].
  cbn [app execute]. rewrite seq_assoc. apply seq_ext, IH.
Qed.

(** What [execute] records is the events before it and the first steps of
    the list. *)
Lemma execute_prefix (t : Tools) (plan : list event) (evs : list event) :
  exists n, fst (execute t plan evs) = (evs ++ firstn n plan)%list.
Proof.
  revert evs. induction plan as [|e plan IH]; intros evs.
  - exists 0%nat. cbn. rewrite app_nil_r. reflexivity.
  - cbn [execute]. unfold seq.
    destruct (perform_result t e evs) as [-> Hfail].
    destruct (match e with Print _ => true | _ => ok t evs e end).
    + destruct (IH (evs ++ [e])%list) as [n Hn]. exists (S n).
      rewrite Hn. cbn [firstn]. rewrite <- app_assoc. reflexivity.
    + exists 1%nat. specialize (Hfail eq_refl).
      destruct (failure e); [congruence | reflexivity ..].
Qed.

(** [execute] ends well exactly when every step succeeds, and has then
    taken all the steps. *)
Lemma execute_checked (t : Tools) (plan : list event) (evs : list event) :
  (steps_ok t evs plan = true ->
   execute t plan evs = ((evs ++ plan)%list, Checked))
  /\ (steps_ok t evs plan = false -> snd (execute t plan evs) <> Checked).
Proof.
  revert evs. induction plan as [|e plan IH]; intros evs.
  - cbn. rewrite app_nil_r. split; [reflexivity | discriminate].
  - cbn [execute steps_ok]. unfold seq.
    destruct (perform_result t e evs) as [-> Hfail].
    destruct (match e with Print _ => true | _ => ok t evs e end).
    + cbn [andb]. destruct (IH (evs ++ [e])%list) as [Hok Hno]. split.
      * intros H. rewrite (Hok H), <- app_assoc. reflexivity.
      * exact Hno.
    + cbn [andb]. split; [discriminate|]. intros _.
      specialize (Hfail eq_refl).
      destruct (failure e); cbn [snd]; congruence.
Qed.

(** The copy loop is [execute] on one copy for each file. *)
Lemma copy_all_then (t : Tools) (files : list string) (k : step) (rest : list event) :
  (forall evs, k evs = execute t rest evs) ->
  forall evs,
    seq (copy_all t files) k evs
    = execute t (map (fun f => Copy f ".") files ++ rest) evs.
Proof.
  intros Hk. induction files as [|f files IH]; intros evs.
  - cbn. apply Hk.
  - cbn [copy_all map app execute perform]. rewrite seq_assoc.
    apply seq_ext, IH.
Qed.

(** The copies made by the loop and what follows it, when what follows
    copies nothing. *)
Lemma execute_copies (t : Tools) (files : list string) (rest : list event)
    (evs : list event) :
  copies_of rest = [] ->
  copies_of (fst (execute t (map (fun f => Copy f ".") files ++ rest) evs))
  = (copies_of evs ++ attempted_copies t evs files)%list.
Proof.
  intros Hrest. revert evs. induction files as [|f files IH]; intros evs.
  - cbn [map app attempted_copies].
    destruct (execute_prefix t rest evs) as [n ->].
    rewrite copies_of_app, (copies_of_firstn_nil n rest Hrest). reflexivity.
  - cbn [map app execute perform attempted_copies]. unfold seq, attempt.
    destruct (ok t evs (Copy f ".")).
    + rewrite IH, copies_of_app, <- app_assoc. reflexivity.
    + cbn [failure fst]. rewrite copies_of_app. reflexivity.
Qed.

(** With the three nodes in the DAG, [check_install] is its list of steps
    taken in order. *)
Lemma check_install_execute (t : Tools) (spec : Spec) (install_prefix : string)
    (conduit vtkm vtkh : Dep) :
  nodes spec !! "conduit" = Some conduit ->
  nodes spec !! "vtkm" = Some vtkm ->
  nodes spec !! "vtkh" = Some vtkh ->
  check_install t spec install_prefix
  = execute t
      (check_steps install_prefix conduit vtkm vtkh
         (glob t (join_path (example_dir install_prefix "using-with-make") "*")))
      [].
Proof.
  intros Hc Hm Hh.
  unfold check_install, with_node, check_steps, steps_before_copies,
    steps_after_copies, cmake_args_of, working_dir, run.
  rewrite Hc, Hm, Hh. cbn [app execute perform].
  do 8 (apply seq_ext; intros ?).
  apply copy_all_then. intros evs'.
  cbn [execute perform]. apply seq_ext. intros evs''.
  symmetry. apply seq_skip_r.
Qed.

(** The commands and the copies among the steps. *)
Lemma runs_of_check_steps (install_prefix : string) (conduit vtkm vtkh : Dep)
    (files : list string) :
  runs_of (check_steps install_prefix conduit vtkm vtkh files)
  = check_commands install_prefix conduit vtkm vtkh.
Proof.
  unfold check_steps. rewrite !runs_of_app, runs_of_copies. reflexivity.
Qed.

(** X16.  The check asks the DAG for conduit, vtkm and vtkh, in this
    order, while building the cmake arguments.  When [k] is the first of
    the three that is not there, the check has printed its two messages
    and tried to enter the first scratch directory, and no more: if the
    directory was entered it raises the [KeyError] of [k], whichever of
    the later nodes are missing too, and no command is run. *)
Theorem check_install_missing_node (t : Tools) (spec : Spec)
    (install_prefix : string) (k : string) :
  List.find (fun n => negb (has_key (nodes spec) n)) checked_nodes = Some k ->
  let printed := [Print "Checking Ascent installation...";
                  Print "Checking using-with-cmake example..."] in
  let enter := EnterDir "check-ascent-using-with-cmake-example" in
  check_install t spec install_prefix
  = ((printed ++ [enter])%list,
     if ok t printed enter
     then CheckRaised (KeyError k)
     else OSError "check-ascent-using-with-cmake-example")
  /\ runs_of (fst (check_install t spec install_prefix)) = [].
Proof.
  unfold checked_nodes, has_key. cbn [List.find].
  unfold check_install, seq, emit, working_dir, attempt, with_node. cbn [app].
  intros Hk.
  destruct (ok t _ _); [|split; reflexivity].
  destruct (nodes spec !! "conduit") as [conduit|].
  2: { injection Hk as <-. split; reflexivity. }
  destruct (nodes spec !! "vtkm") as [vtkm|].
  2: { injection Hk as <-. split; reflexivity. }
  destruct (nodes spec !! "vtkh") as [vtkh|].
  2: { injection Hk as <-. split; reflexivity. }
  discriminate Hk.
Qed.

(** A DAG with conduit and without vtkm and vtkh: the check stops at
    vtkm. *)
Lemma check_install_missing_node_witness :
  List.find (fun n => negb (has_key (nodes spec_with_conduit) n)) checked_nodes
  = Some "vtkm"
  /\ nodes spec_with_conduit !! "vtkh" = None
  /\ check_install tools_ok spec_with_conduit "/opt/sw4"
     = ([Print "Checking Ascent installation...";
         Print "Checking using-with-cmake example...";
         EnterDir "check-ascent-using-with-cmake-example"],
        CheckRaised (KeyError "vtkm"))
  /\ runs_of (fst (check_install tools_ok spec_with_conduit "/opt/sw4")) = [].
Proof.
  split; [vm_compute; reflexivity|]. split; [vm_compute; reflexivity|].
  apply (check_install_missing_node tools_ok spec_with_conduit "/opt/sw4" "vtkm").
  vm_compute. reflexivity.
Defined.

(** X17.  With the three nodes in the DAG, the check takes the steps of
    [check_steps] in order (the two messages, the first directory, cmake
    with the four directory definitions and the example source directory,
    make, the example, the third message, the second directory, one copy
    for each example file, make with ASCENT_DIR, and the example again)
    and stops at the first step that fails, whose error is its result.
    So the events are the first steps of the list, the commands run are
    the first of the five commands, and the check ends well exactly when
    every step succeeds, having then taken them all. *)
Theorem check_install_commands (t : Tools) (spec : Spec) (install_prefix : string)
    (conduit vtkm vtkh : Dep) :
  nodes spec !! "conduit" = Some conduit ->
  nodes spec !! "vtkm" = Some vtkm ->
  nodes spec !! "vtkh" = Some vtkh ->
  let steps :=
    check_steps install_prefix conduit vtkm vtkh
      (glob t (join_path (example_dir install_prefix "using-with-make") "*")) in
  let done := check_install t spec install_prefix in
  done = execute t steps []
  /\ (exists n, fst done = firstn n steps)
  /\ (exists m, runs_of (fst done)
                = firstn m (check_commands install_prefix conduit vtkm vtkh))
  /\ (snd done = Checked <-> steps_ok t [] steps = true)
  /\ (snd done = Checked ->
      fst done = steps
      /\ runs_of (fst done) = check_commands install_prefix conduit vtkm vtkh).
Proof.
  intros Hc Hm Hh steps done.
  assert (Hrun : done = execute t steps [])
    by (apply check_install_execute; assumption).
  assert (Hend : snd done = Checked <-> steps_ok t [] steps = true).
  { rewrite Hrun. destruct (execute_checked t steps []) as [Hok Hno].
    destruct (steps_ok t [] steps).
    - rewrite (Hok eq_refl). split; reflexivity.
    - split; [intros H; destruct (Hno eq_refl H) | discriminate]. }
  assert (Hall : snd done = Checked -> fst done = steps).
  { intros H. apply Hend in H. rewrite Hrun.
    rewrite (proj1 (execute_checked t steps []) H). reflexivity. }
  split; [exact Hrun|]. split; [|split; [|split; [exact Hend|]]].
  - rewrite Hrun. exact (execute_prefix t steps []).
  - rewrite Hrun. destruct (execute_prefix t steps []) as [n ->]. cbn [app].
    destruct (runs_of_firstn n steps) as [m ->]. exists m.
    unfold steps. rewrite runs_of_check_steps. reflexivity.
  - intros H. rewrite (Hall H). split; [reflexivity|].
    apply runs_of_check_steps.
Qed.

(** The example built by make fails after the one built by cmake has run:
    all five commands are run, and the error is the one of the fifth. *)
Lemma check_install_commands_witness :
  nodes spec_with_ascent !! "conduit" = Some (Sample.lib "/opt/conduit")
  /\ nodes spec_with_ascent !! "vtkm" = Some (Sample.lib "/opt/vtkm")
  /\ nodes spec_with_ascent !! "vtkh" = Some (Sample.lib "/opt/vtkh")
  /\ check_install tools_second_example_fails spec_with_ascent "/opt/sw4"
     = (check_steps "/opt/sw4" (Sample.lib "/opt/conduit") (Sample.lib "/opt/vtkm")
          (Sample.lib "/opt/vtkh") (glob tools_ok ""),
        ProcessError "./ascent_render_example")
  /\ snd (check_install tools_make_fails spec_with_ascent "/opt/sw4")
     = ProcessError "make"
  /\ snd (check_install tools_copy_fails spec_with_ascent "/opt/sw4")
     = OSError "/opt/sw4/examples/ascent/using-with-make/example.cpp".
Proof.
  assert (Hc : nodes spec_with_ascent !! "conduit" = Some (Sample.lib "/opt/conduit"))
    by (vm_compute; reflexivity).
  assert (Hm : nodes spec_with_ascent !! "vtkm" = Some (Sample.lib "/opt/vtkm"))
    by (vm_compute; reflexivity).
  assert (Hh : nodes spec_with_ascent !! "vtkh" = Some (Sample.lib "/opt/vtkh"))
    by (vm_compute; reflexivity).
  split; [exact Hc|]. split; [exact Hm|]. split; [exact Hh|].
  split; [|split].
  - destruct (check_install_commands tools_second_example_fails spec_with_ascent
                "/opt/sw4" _ _ _ Hc Hm Hh) as [Hrun _].
    rewrite Hrun. vm_compute. reflexivity.
  - destruct (check_install_commands tools_make_fails spec_with_ascent
                "/opt/sw4" _ _ _ Hc Hm Hh) as [Hrun _].
    rewrite Hrun. vm_compute. reflexivity.
  - destruct (check_install_commands tools_copy_fails spec_with_ascent
                "/opt/sw4" _ _ _ Hc Hm Hh) as [Hrun _].
    rewrite Hrun. vm_compute. reflexivity.
Defined.

(** The eight steps before the copy loop all succeed exactly when the two
    directories are entered and cmake, make and the example succeed, each
    after the steps before it. *)
Lemma steps_before_copies_ok (t : Tools) (install_prefix : string)
    (conduit vtkm vtkh : Dep) (before : list event) :
  before = steps_before_copies install_prefix conduit vtkm vtkh ->
  steps_ok t [] before
  = ok t (firstn 2 before) (EnterDir "check-ascent-using-with-cmake-example")
    && (ok t (firstn 3 before)
          (Run "cmake" (cmake_args_of install_prefix conduit vtkm vtkh))
    && (ok t (firstn 4 before) (Run "make" [])
    && (ok t (firstn 5 before) (Run "./ascent_render_example" [])
    && ok t (firstn 7 before) (EnterDir "check-ascent-using-with-make-example")))).
Proof.
  intros ->. cbn. rewrite !andb_true_r. reflexivity.
Qed.

(** X18.  The example files are copied only once the cmake example has
    been built and run.  If the first scratch directory is entered, cmake,
    make and the example succeed and the second scratch directory is
    entered, the files that [glob] finds in the using-with-make directory
    are copied to the current directory in the order [glob] gives, up to
    the first copy that fails: every one of them if no copy fails.
    Otherwise nothing is copied. *)
Theorem check_install_copies (t : Tools) (spec : Spec) (install_prefix : string)
    (conduit vtkm vtkh : Dep) :
  nodes spec !! "conduit" = Some conduit ->
  nodes spec !! "vtkm" = Some vtkm ->
  nodes spec !! "vtkh" = Some vtkh ->
  let before := steps_before_copies install_prefix conduit vtkm vtkh in
  let files := glob t (join_path (example_dir install_prefix "using-with-make") "*") in
  let cmake := Run "cmake" ["-DASCENT_DIR=" +:+ install_prefix;
                            "-DCONDUIT_DIR=" +:+ dep_prefix conduit;
                            "-DVTKM_DIR=" +:+ dep_prefix vtkm;
                            "-DVTKH_DIR=" +:+ dep_prefix vtkh;
                            example_dir install_prefix "using-with-cmake"] in
  let reached :=
    ok t (firstn 2 before) (EnterDir "check-ascent-using-with-cmake-example")
    && (ok t (firstn 3 before) cmake
    && (ok t (firstn 4 before) (Run "make" [])
    && (ok t (firstn 5 before) (Run "./ascent_render_example" [])
    && ok t (firstn 7 before)
         (EnterDir "check-ascent-using-with-make-example")))) in
  copies_of (fst (check_install t spec install_prefix))
  = (if reached then attempted_copies t before files else [])
  /\ (reached = true ->
      steps_ok t before (map (fun f => Copy f ".") files) = true ->
      copies_of (fst (check_install t spec install_prefix))
      = map (fun f => (f, ".")) files).
Proof.
  intros Hc Hm Hh before files cmake reached.
  assert (Hcopies : copies_of (fst (check_install t spec install_prefix))
                    = if reached then attempted_copies t before files else []).
  { rewrite (check_install_execute t spec install_prefix conduit vtkm vtkh Hc Hm Hh).
    fold files. unfold check_steps. fold before. subst reached.
    change cmake with (Run "cmake" (cmake_args_of install_prefix conduit vtkm vtkh)).
    rewrite <- (steps_before_copies_ok t install_prefix conduit vtkm vtkh before
                  eq_refl).
    rewrite execute_app. unfold seq.
    destruct (execute_checked t before []) as [Hok Hno].
    destruct (steps_ok t [] before).
    + rewrite (Hok eq_refl). cbn [app].
      rewrite execute_copies by reflexivity. reflexivity.
    + specialize (Hno eq_refl).
      destruct (execute_prefix t before []) as [n Hn].
      destruct (execute t before []) as [evs r]. cbn [fst snd app] in *.
      subst evs.
      destruct r; [congruence | ..]; cbn [fst];
        apply copies_of_firstn_nil; reflexivity. }
  split; [exact Hcopies|].
  intros Hreached. rewrite Hcopies, Hreached. clear.
  generalize before. induction files as [|f files' IH]; intros evs H;
    [reflexivity|].
  cbn [map steps_ok attempted_copies] in *.
  apply andb_prop in H as [H1 H2]. rewrite H1, (IH _ H2). reflexivity.
Qed.

(** All the tools succeed: both files are copied.  The second file cannot
    be copied: the first is copied and the second attempted.  Make fails:
    nothing is copied. *)
Lemma check_install_copies_witness :
  nodes spec_with_ascent !! "conduit" = Some (Sample.lib "/opt/conduit")
  /\ nodes spec_with_ascent !! "vtkm" = Some (Sample.lib "/opt/vtkm")
  /\ nodes spec_with_ascent !! "vtkh" = Some (Sample.lib "/opt/vtkh")
  /\ copies_of (fst (check_install tools_ok spec_with_ascent "/opt/sw4"))
     = [("/opt/sw4/examples/ascent/using-with-make/Makefile", ".");
        ("/opt/sw4/examples/ascent/using-with-make/example.cpp", ".")]
  /\ copies_of (fst (check_install tools_copy_fails spec_with_ascent "/opt/sw4"))
     = [("/opt/sw4/examples/ascent/using-with-make/Makefile", ".");
        ("/opt/sw4/examples/ascent/using-with-make/example.cpp", ".")]
  /\ copies_of (fst (check_install tools_make_fails spec_with_ascent "/opt/sw4"))
     = [].
Proof.
  assert (Hc : nodes spec_with_ascent !! "conduit" = Some (Sample.lib "/opt/conduit"))
    by (vm_compute; reflexivity).
  assert (Hm : nodes spec_with_ascent !! "vtkm" = Some (Sample.lib "/opt/vtkm"))
    by (vm_compute; reflexivity).
  assert (Hh : nodes spec_with_ascent !! "vtkh" = Some (Sample.lib "/opt/vtkh"))
    by (vm_compute; reflexivity).
  split; [exact Hc|]. split; [exact Hm|]. split; [exact Hh|].
  split; [|split].
  - destruct (check_install_copies tools_ok spec_with_ascent "/opt/sw4"
                _ _ _ Hc Hm Hh) as [Hcopies _].
    rewrite Hcopies. vm_compute. reflexivity.
  - destruct (check_install_copies tools_copy_fails spec_with_ascent "/opt/sw4"
                _ _ _ Hc Hm Hh) as [Hcopies _].
    rewrite Hcopies. vm_compute. reflexivity.
  - destruct (check_install_copies tools_make_fails spec_with_ascent "/opt/sw4"
                _ _ _ Hc Hm Hh) as [Hcopies _].
    rewrite Hcopies. vm_compute. reflexivity.
Defined.
